(** * arcane-python: the structural interface checks and the Action classes

    A shallow embedding of [interfaces/base_for_async_and_sync_subclasshook.py]:
    the [__subclasshook__] capability checks of [LinkInterface],
    [RegistryInterface], [ActionInterface], [DownloadInterface] and
    [UploadInterface], on the set of a candidate's attributes and on
    candidates whose attribute lookup can raise; the behaviour slot of
    [AbstractAction] and [AbstractAsyncAction] ([__init__], the [__behavior__]
    property, [__call__], [__await__] and [_gen_wrapper]); [decode_uri] of
    [AbstractLinkParser]; and of [memoize] in
    [io_processing/json_config_load_once.py]. *)

From Stdlib Require Import ZArith String List.
From stdpp Require Import base option list strings gmap fin_maps.

Local Open Scope string_scope.
Local Open Scope list_scope.
Set Warnings "-register-all".

(** ** Python values *)

(** The values the module manipulates.  A function written with [def] or
    [lambda] is named by a number and gets its meaning from the [Program]
    below; the closures the module itself creates are constructors of their
    own, holding what they capture. *)
Inductive value : Type :=
| VNone
| VNotImplemented
| VBool (b : bool)
| VInt (z : Z)
| VStr (s : string)
| VFunc (f : nat)                      (* def f(...) / lambda ...: ... *)
| VCoroFunc (f : nat)                  (* async def f(...) *)
| VCoroutine (fn : value) (args : list value) (kwargs : list (string * value))
                                       (* the coroutine object a call of fn returns *)
| VLambdaNotImplemented                (* lambda: NotImplemented *)
| VDefault                             (* async def default(): return NotImplemented *)
| VGeneric (Func : value) (Partial_Args : list value)
           (Partial_Kwargs : list (string * value)).
                                       (* _generic, closed over _gen_wrapper's arguments *)

(** A [**kwargs] dictionary: string keys in insertion order. *)
Abbreviation kwargs := (list (string * value)).

(** ** Exceptions and results *)

Inductive type_error : Type :=
| multiple_values_for_keyword (name : string)
| not_callable
| unexpected_arguments.

Inductive exn : Type :=
| ValueError (msg : string)
| TypeError (why : type_error)
| AttributeError (name : string)
| Raised (what : string).

Inductive result (A : Type) : Type :=
| Ok (a : A)
| Err (e : exn).
Arguments Ok {A} a.
Arguments Err {A} e.

#[global] Instance result_ret : MRet result := fun A a => Ok a.
#[global] Instance result_bind : MBind result := fun A B k m =>
  match m with
  | Ok a => k a
  | Err e => Err e
  end.

(** ** Truth, [and], [or], [hasattr], [callable] *)

(** Truth value testing: [None], [False], zero and the empty string are
    false, everything else (also [NotImplemented]) is true. *)
Definition truthy (v : value) : bool :=
  match v with
  | VNone => false
  | VBool b => b
  | VInt z => negb (z =? 0)%Z
  | VStr s => negb (String.eqb s "")
  | _ => true
  end.

(** [x and y] and [x or y] return one of their operands, and evaluate [y]
    only when [x] does not decide. *)
Definition py_and (x y : result value) : result value :=
  v ← x; if truthy v then y else Ok v.

Definition py_or (x y : result value) : result value :=
  v ← x; if truthy v then Ok v else y.

Declare Scope py_scope.
Delimit Scope py_scope with py.
Infix "<and>" := py_and (at level 40, left associativity) : py_scope.
Infix "<or>" := py_or (at level 50, left associativity) : py_scope.

Definition True_ : value := VBool true.
Definition False_ : value := VBool false.

(** A candidate of a capability check: the attributes attribute lookup
    finds on it.  (Lookups that raise are in [Live], further down, which
    agrees with this on a candidate all of whose lookups return.) *)
Abbreviation candidate := (gmap string value).

Definition hasattr (sub : candidate) (name : string) : result value :=
  Ok (VBool (bool_decide (is_Some (sub !! name)))).

(** [sub.name]: raises [AttributeError] when the attribute is missing. *)
Definition getattr (sub : candidate) (name : string) : result value :=
  match sub !! name with
  | Some v => Ok v
  | None => Err (AttributeError name)
  end.

Definition is_callable (v : value) : bool :=
  match v with
  | VFunc _ | VCoroFunc _ | VLambdaNotImplemented | VDefault | VGeneric _ _ _ => true
  | _ => false
  end.

Definition callable (x : result value) : result value :=
  v ← x; Ok (VBool (is_callable v)).

(** ** The capability checks *)

Module LinkInterface.
Definition __subclasshook__ (sub : candidate) : result value :=
  ( ((
        hasattr sub "__enter__" <and> callable (getattr sub "__enter__") <and>
        hasattr sub "__exit__" <and> callable (getattr sub "__exit__")
     ) <or>
     (
        hasattr sub "__aenter__" <and> callable (getattr sub "__aenter__") <and>
        hasattr sub "__aexit__" <and> callable (getattr sub "__aexit__")
     )) <and>
    hasattr sub "generate_uri" <and> callable (getattr sub "generate_uri") <and>
    hasattr sub "decode_uri" <and> callable (getattr sub "decode_uri")
  )%py.
End LinkInterface.

Module RegistryInterface.
Definition __subclasshook__ (sub : candidate) : result value :=
  ( ((
        hasattr sub "create" <and> callable (getattr sub "create")
     ) <or>
     (
        hasattr sub "async_create" <and> callable (getattr sub "async_create")
     )) <and>
    ((
        hasattr sub "delete" <and> callable (getattr sub "delete")
     ) <or>
     (
        hasattr sub "async_delete" <and> callable (getattr sub "async_delete")
     )) <and>
    (
        hasattr sub "__keystore__"
    ) <and>
    (
        hasattr sub "__setitem__" <and> callable (getattr sub "__setitem__")
    ) <and>
    (
        hasattr sub "__getitem__" <and> callable (getattr sub "__getitem__")
    ) <and>
    ((
        hasattr sub "retrieve" <and> callable (getattr sub "retrieve")
     ) <or>
     (
        hasattr sub "async_retrieve" <and> callable (getattr sub "async_retrieve")
     ))
  )%py.
End RegistryInterface.

Module ActionInterface.
Definition __subclasshook__ (sub : candidate) : result value :=
  ( (* Synchronous, blocking code behavior *)
    ((
        hasattr sub "__behavior__"
     ) <and>
     (* Without context management *)
     ((
        hasattr sub "__call__" <and> callable (getattr sub "__call__")
      ) <or>
      (* With context management *)
      ((
        hasattr sub "__call__" <and> callable (getattr sub "__call__")
       ) <and>
       (
        hasattr sub "__enter__" <and> callable (getattr sub "__enter__")
       ) <and>
       (
        hasattr sub "__exit__" <and> callable (getattr sub "__exit__")
       ))))
    <or>
    (* Asynchronous, non-blocking code behavior *)
    ((
        hasattr sub "__async_behavior__"
     ) <and>
     (* Without asynchronous context management *)
     ((
        hasattr sub "__await__" <and> callable (getattr sub "__await__")
      ) <or>
      (* With asynchronous context management *)
      ((
        hasattr sub "__await__" <and> callable (getattr sub "__await__")
       ) <and>
       (
        hasattr sub "__aenter__" <and> callable (getattr sub "__aenter__")
       ) <and>
       (
        hasattr sub "__aexit__" <and> callable (getattr sub "__aexit__")
       ))
     ))
  )%py.
End ActionInterface.

Module DownloadInterface.
Definition __subclasshook__ (sub : candidate) : result value :=
  ( (
      (
        hasattr sub "__aenter__" <and> hasattr sub "__aexit__" <and>
        callable (getattr sub "__aenter__") <and> callable (getattr sub "__aexit__")
      )
      <or>
      (
        hasattr sub "__enter__" <and> hasattr sub "__exit__" <and>
        callable (getattr sub "__enter__") <and> callable (getattr sub "__exit__")
      )
    ) <and>
    (
      hasattr sub "before_download" <and> callable (getattr sub "before_download") <or>
      Ok VNotImplemented
    ) <and>
    (
      hasattr sub "after_download" <and> callable (getattr sub "after_download") <or>
      Ok VNotImplemented
    ) <or> Ok VNotImplemented
  )%py.
End DownloadInterface.

Module UploadInterface.
Definition __subclasshook__ (sub : candidate) : result value :=
  ( (
      (
        hasattr sub "__aenter__" <and> hasattr sub "__aexit__" <and>
        callable (getattr sub "__aenter__") <and> callable (getattr sub "__aexit__")
      )
      <or>
      (
        hasattr sub "__enter__" <and> hasattr sub "__exit__" <and>
        callable (getattr sub "__enter__") <and> callable (getattr sub "__exit__")
      )
    ) <and>
    (
      hasattr sub "before_upload" <and> callable (getattr sub "before_upload") <or>
      Ok VNotImplemented
    ) <and>
    (
      hasattr sub "after_upload" <and> callable (getattr sub "after_upload") <or>
      Ok VNotImplemented
    ) <or> Ok VNotImplemented
  )%py.
End UploadInterface.

(** The roles a candidate can be checked against, and the check of each. *)
Inductive role : Type :=
| link_parser
| registry
| action
| download
| upload.

Definition satisfies (sub : candidate) (r : role) : result value :=
  match r with
  | link_parser => LinkInterface.__subclasshook__ sub
  | registry => RegistryInterface.__subclasshook__ sub
  | action => ActionInterface.__subclasshook__ sub
  | download => DownloadInterface.__subclasshook__ sub
  | upload => UploadInterface.__subclasshook__ sub
  end.

(** ** The capability checks when attribute lookup can raise *)

(** A candidate as attribute lookup finds it: a name is absent, or looking
    it up returns a value, or looking it up raises (a property or a
    [__getattr__] that raises). *)
Abbreviation live_candidate := (gmap string (result value)).

Definition lookup_attribute (sub : live_candidate) (name : string)
    : result value :=
  match sub !! name with
  | Some outcome => outcome
  | None => Err (AttributeError name)
  end.

Module Live.

(** [hasattr] answers [False] for an [AttributeError] and lets any other
    exception through. *)
Definition hasattr (sub : live_candidate) (name : string) : result value :=
  match lookup_attribute sub name with
  | Ok _ => Ok True_
  | Err (AttributeError _) => Ok False_
  | Err e => Err e
  end.

Definition getattr (sub : live_candidate) (name : string) : result value :=
  lookup_attribute sub name.

Module LinkInterface.
Definition __subclasshook__ (sub : live_candidate) : result value :=
  ( ((
        hasattr sub "__enter__" <and> callable (getattr sub "__enter__") <and>
        hasattr sub "__exit__" <and> callable (getattr sub "__exit__")
     ) <or>
     (
        hasattr sub "__aenter__" <and> callable (getattr sub "__aenter__") <and>
        hasattr sub "__aexit__" <and> callable (getattr sub "__aexit__")
     )) <and>
    hasattr sub "generate_uri" <and> callable (getattr sub "generate_uri") <and>
    hasattr sub "decode_uri" <and> callable (getattr sub "decode_uri")
  )%py.
End LinkInterface.

Module RegistryInterface.
Definition __subclasshook__ (sub : live_candidate) : result value :=
  ( ((
        hasattr sub "create" <and> callable (getattr sub "create")
     ) <or>
     (
        hasattr sub "async_create" <and> callable (getattr sub "async_create")
     )) <and>
    ((
        hasattr sub "delete" <and> callable (getattr sub "delete")
     ) <or>
     (
        hasattr sub "async_delete" <and> callable (getattr sub "async_delete")
     )) <and>
    (
        hasattr sub "__keystore__"
    ) <and>
    (
        hasattr sub "__setitem__" <and> callable (getattr sub "__setitem__")
    ) <and>
    (
        hasattr sub "__getitem__" <and> callable (getattr sub "__getitem__")
    ) <and>
    ((
        hasattr sub "retrieve" <and> callable (getattr sub "retrieve")
     ) <or>
     (
        hasattr sub "async_retrieve" <and> callable (getattr sub "async_retrieve")
     ))
  )%py.
End RegistryInterface.

Module ActionInterface.
Definition __subclasshook__ (sub : live_candidate) : result value :=
  ( (* Synchronous, blocking code behavior *)
    ((
        hasattr sub "__behavior__"
     ) <and>
     (* Without context management *)
     ((
        hasattr sub "__call__" <and> callable (getattr sub "__call__")
      ) <or>
      (* With context management *)
      ((
        hasattr sub "__call__" <and> callable (getattr sub "__call__")
       ) <and>
       (
        hasattr sub "__enter__" <and> callable (getattr sub "__enter__")
       ) <and>
       (
        hasattr sub "__exit__" <and> callable (getattr sub "__exit__")
       ))))
    <or>
    (* Asynchronous, non-blocking code behavior *)
    ((
        hasattr sub "__async_behavior__"
     ) <and>
     (* Without asynchronous context management *)
     ((
        hasattr sub "__await__" <and> callable (getattr sub "__await__")
      ) <or>
      (* With asynchronous context management *)
      ((
        hasattr sub "__await__" <and> callable (getattr sub "__await__")
       ) <and>
       (
        hasattr sub "__aenter__" <and> callable (getattr sub "__aenter__")
       ) <and>
       (
        hasattr sub "__aexit__" <and> callable (getattr sub "__aexit__")
       ))
     ))
  )%py.
End ActionInterface.

Module DownloadInterface.
Definition __subclasshook__ (sub : live_candidate) : result value :=
  ( (
      (
        hasattr sub "__aenter__" <and> hasattr sub "__aexit__" <and>
        callable (getattr sub "__aenter__") <and> callable (getattr sub "__aexit__")
      )
      <or>
      (
        hasattr sub "__enter__" <and> hasattr sub "__exit__" <and>
        callable (getattr sub "__enter__") <and> callable (getattr sub "__exit__")
      )
    ) <and>
    (
      hasattr sub "before_download" <and> callable (getattr sub "before_download") <or>
      Ok VNotImplemented
    ) <and>
    (
      hasattr sub "after_download" <and> callable (getattr sub "after_download") <or>
      Ok VNotImplemented
    ) <or> Ok VNotImplemented
  )%py.
End DownloadInterface.

Module UploadInterface.
Definition __subclasshook__ (sub : live_candidate) : result value :=
  ( (
      (
        hasattr sub "__aenter__" <and> hasattr sub "__aexit__" <and>
        callable (getattr sub "__aenter__") <and> callable (getattr sub "__aexit__")
      )
      <or>
      (
        hasattr sub "__enter__" <and> hasattr sub "__exit__" <and>
        callable (getattr sub "__enter__") <and> callable (getattr sub "__exit__")
      )
    ) <and>
    (
      hasattr sub "before_upload" <and> callable (getattr sub "before_upload") <or>
      Ok VNotImplemented
    ) <and>
    (
      hasattr sub "after_upload" <and> callable (getattr sub "after_upload") <or>
      Ok VNotImplemented
    ) <or> Ok VNotImplemented
  )%py.
End UploadInterface.

Definition satisfies (sub : live_candidate) (r : role) : result value :=
  match r with
  | link_parser => LinkInterface.__subclasshook__ sub
  | registry => RegistryInterface.__subclasshook__ sub
  | action => ActionInterface.__subclasshook__ sub
  | download => DownloadInterface.__subclasshook__ sub
  | upload => UploadInterface.__subclasshook__ sub
  end.

End Live.

(** ** Calling *)

(** What the functions written by the users of the module do: the body of
    each [def], and whether the parameters of each [async def] accept given
    arguments. *)
Class Program : Type := {
  def_body : nat -> list value -> kwargs -> result value;
  async_def_binds : nat -> list value -> kwargs -> bool
}.

(** [{**d, **other}] in a call: a name given twice is a [TypeError]. *)
Fixpoint dict_merge (d other : kwargs) : result kwargs :=
  match other with
  | [] => Ok d
  | (k, v) :: rest =>
      if bool_decide (k ∈ d.*1)
      then Err (TypeError (multiple_values_for_keyword k))
      else dict_merge (d ++ [(k, v)]) rest
  end.

(** The body of [_generic], the closure [_gen_wrapper] returns, given how to
    call [Func].  ([functools.wraps] copies the name and the documentation of
    [Func] onto the closure; what a call does is not touched by it.) *)
Definition _generic (Func : list value -> kwargs -> result value)
    (Partial_Args : list value) (Partial_Kwargs : kwargs)
    (args : list value) (kw : kwargs) : result value :=
  merged ← dict_merge kw Partial_Kwargs;
  Func (args ++ Partial_Args) merged.

Fixpoint call `{Program} (callee : value) (args : list value) (kw : kwargs)
    {struct callee} : result value :=
  match callee with
  | VFunc f => def_body f args kw
  | VCoroFunc f =>
      if async_def_binds f args kw then Ok (VCoroutine callee args kw)
      else Err (TypeError unexpected_arguments)
  | VLambdaNotImplemented =>
      match args, kw with
      | [], [] => Ok VNotImplemented
      | _, _ => Err (TypeError unexpected_arguments)
      end
  | VDefault =>
      match args, kw with
      | [], [] => Ok (VCoroutine callee [] [])
      | _, _ => Err (TypeError unexpected_arguments)
      end
  | VGeneric Func Partial_Args Partial_Kwargs =>
      _generic (call Func) Partial_Args Partial_Kwargs args kw
  | _ => Err (TypeError not_callable)
  end.

Definition iscoroutinefunction (v : value) : bool :=
  match v with
  | VCoroFunc _ | VDefault => true
  | _ => false
  end.

Definition is_None (v : value) : bool :=
  match v with
  | VNone => true
  | _ => false
  end.

(** ** Instances and properties *)

(** An instance is its [__dict__]. *)
Abbreviation instance := (gmap string value).

(** [self.__dict__.update(kwargs)] *)
Definition dict_update (self : instance) (kw : kwargs) : instance :=
  foldl (fun d kv => <[kv.1 := kv.2]> d) self kw.

(** [self.name = v] where [name] is a property with setter [fset]: the
    setter receives the instance and the value, nothing else. *)
Definition property_set
    (fset : instance -> value -> list value -> kwargs -> result instance)
    (self : instance) (v : value) : result instance :=
  fset self v [] [].

(** ** Binding the arguments of a call *)

(** The first keyword of a call that names a parameter which is filled
    already: the call raises [TypeError] for it before the body runs. *)
Fixpoint first_repeated (filled : list string) (kw : kwargs) : option string :=
  match kw with
  | [] => None
  | (k, _) :: rest =>
      if bool_decide (k ∈ filled) then Some k else first_repeated filled rest
  end.

(** A call bound to the parameters [(self, *args, **kwargs)]: the instance
    fills [self], so that a keyword named [self] is refused. *)
Definition bind_self (kw : kwargs) : result kwargs :=
  match first_repeated ["self"] kw with
  | Some k => Err (TypeError (multiple_values_for_keyword k))
  | None => Ok kw
  end.

(** A call bound to the parameters [(self, name=None, **kwargs)]: the
    instance fills [self]; one positional argument fills [name], and a
    keyword [name] is then refused; without a positional argument the keyword
    [name] fills it, and [None] when there is no such keyword; more than one
    positional argument is refused.  What is returned is the value of [name]
    and the dictionary [kwargs]. *)
Definition bind_self_optional (name : string) (args : list value)
    (kw : kwargs) : result (value * kwargs) :=
  let filled := match args with [] => ["self"] | _ => ["self"; name] end in
  match first_repeated filled kw with
  | Some k => Err (TypeError (multiple_values_for_keyword k))
  | None =>
      match args with
      | [] =>
          Ok (default VNone (snd <$> head (filter (fun kv => kv.1 = name) kw)),
              filter (fun kv => kv.1 <> name) kw)
      | [v] => Ok (v, kw)
      | _ => Err (TypeError unexpected_arguments)
      end
  end.

(** ** AbstractAction *)

Module AbstractAction.

Definition illegal_coroutine : string := "
            Illegal target type 'coroutine' assigned.
            Consider replacing the `func` parameter with
            a blocking, synchronous function instead of a 
            coroutine function. Otherwise, use a class that 
            inherits from the `AbstractAsyncAction` type.".

Definition _gen_wrapper (Func : value) (Partial_Args : list value)
    (Partial_Kwargs : kwargs) : value :=
  VGeneric Func Partial_Args Partial_Kwargs.

Definition __behavior__ (self : instance) : result value :=
  getattr self "_behavior_store".

Definition __behavior___setter (self : instance) (func : value)
    (args : list value) (kw : kwargs) : result instance :=
  if negb (is_None func) && negb (iscoroutinefunction func)
  then Ok (<["_behavior_store" := _gen_wrapper func args kw]> self)
  else Err (ValueError illegal_coroutine).

(** A call of [AbstractAction] with arguments, for the parameters
    [(self, func=None, **kwargs)]. *)
Definition __init__ (args : list value) (kw : kwargs) : result instance :=
  bound ← bind_self_optional "func" args kw;
  let func := bound.1 in
  let kwargs := bound.2 in
  let self : instance := {[ "_behavior_store" := VLambdaNotImplemented ]} in
  self ← property_set __behavior___setter self func;
  Ok (dict_update self kwargs).

(** A call of the instance with arguments, for the parameters
    [(self, *args, **kwargs)]. *)
Definition __call__ `{Program} (self : instance) (args : list value)
    (kw : kwargs) : result value :=
  kwargs ← bind_self kw;
  behavior ← __behavior__ self;
  call behavior args kwargs.

End AbstractAction.

(** ** AbstractAsyncAction *)

Module AbstractAsyncAction.

Definition illegal_non_coroutine : string := "
            Illegal non-coroutine target type assigned.
            Please supply an async function to the `coro`
            paramter or replace this action with a blocking,
            synchronous class instance that inherits from the
            `AbstractAction` type.".

Definition _gen_wrapper (Func : value) (Partial_Args : list value)
    (Partial_Kwargs : kwargs) : value :=
  VGeneric Func Partial_Args Partial_Kwargs.

Definition __async_behavior__ (self : instance) : result value :=
  getattr self "_behavior_store".

Definition __async_behavior___setter (self : instance) (coro : value)
    (args : list value) (kw : kwargs) : result instance :=
  if negb (is_None coro) && iscoroutinefunction coro
  then Ok (<["_behavior_store" := _gen_wrapper coro args kw]> self)
  else Err (ValueError illegal_non_coroutine).

(** A call of [AbstractAsyncAction] with arguments, for the parameters
    [(self, coro=None, **kwargs)]. *)
Definition __init__ (args : list value) (kw : kwargs) : result instance :=
  bound ← bind_self_optional "coro" args kw;
  let coro := bound.1 in
  let kwargs := bound.2 in
  let self : instance := {[ "_behavior_store" := VDefault ]} in
  self ← property_set __async_behavior___setter self coro;
  Ok (dict_update self kwargs).

(** [__await__], with the parameters [(self, *args, **kwargs)]: the stored
    behavior is called with the arguments, and [__await__()] of the object
    it returns is handed back.  Modelled up to that last step: the result is
    the coroutine object that is awaited, and an object that is no coroutine
    has no [__await__]. *)
Definition __await__ `{Program} (self : instance) (args : list value)
    (kw : kwargs) : result value :=
  kwargs ← bind_self kw;
  behavior ← __async_behavior__ self;
  awaitable ← call behavior args kwargs;
  match awaitable with
  | VCoroutine _ _ _ => Ok awaitable
  | _ => Err (AttributeError "__await__")
  end.

End AbstractAsyncAction.

(** * io_processing/json_config_load_once.py *)

#[global] Instance value_eq_dec : EqDecision value.
Proof.
  unfold EqDecision, Decision. fix IH 1. intros x y.
  decide equality;
    first [ apply IH | apply Bool.bool_dec | apply Z.eq_dec
          | apply String.string_dec | apply Nat.eq_dec
          | apply List.list_eq_dec; exact IH
          | apply List.list_eq_dec; intros [s v] [s' v'];
            decide equality; first [apply IH | apply String.string_dec] ].
Defined.

(** The keys of a dictionary are compared with [==], for which [True] is
    [1] and [False] is [0]; [hash_key] picks one value among those that are
    equal.  (Functions and coroutines are compared by identity, and the model
    names an object by what it is made of.) *)
Definition hash_key (v : value) : value :=
  match v with
  | VBool b => VInt (Z.b2z b)
  | _ => v
  end.

Module memoize.
Section memoize.

(** The decorated function.  What it returns may depend on the world
    outside it (for [load_json_config], on the file it reads) and is of any
    type [R]. *)
Context {World R : Type}.
Variable function : World -> list value -> kwargs -> result R.

(** [call = (args, tuple(kwargs.items()))], as a dictionary key. *)
Definition call_of (args : list value) (kw : kwargs) : list value * kwargs :=
  (hash_key <$> args, prod_map id hash_key <$> kw).

(** The dictionary [cache]: [cache_get] is [cache[call]] ([None] when
    [call not in cache]), [cache_set] is [cache[call] = res]. *)
Fixpoint cache_get (cache : list (list value * kwargs * R))
    (call : list value * kwargs) : option R :=
  match cache with
  | [] => None
  | (k, r) :: rest => if decide (k = call) then Some r else cache_get rest call
  end.

Fixpoint cache_set (cache : list (list value * kwargs * R))
    (call : list value * kwargs) (res : R) : list (list value * kwargs * R) :=
  match cache with
  | [] => [(call, res)]
  | (k, r) :: rest =>
      if decide (k = call) then (k, res) :: rest
      else (k, r) :: cache_set rest call res
  end.

(** The closure [result] that [memoize] returns, with the [nonlocal cache]
    passed in and handed back; the three flags are given by their truth
    values. *)
Definition result (cache : list (list value * kwargs * R)) (world : World)
    (args : list value) (clear_cache ignore_cache skip_cache : bool)
    (kw : kwargs) : result R * list (list value * kwargs * R) :=
  let call := call_of args kw in
  let cache := if clear_cache then [] else cache in
  match cache_get cache call, ignore_cache with
  | Some cached, false => (Ok cached, cache)
  | _, _ =>
      match function world args kw with
      | Err e => (Err e, cache)
      | Ok res => (Ok res, if skip_cache then cache else cache_set cache call res)
      end
  end.

End memoize.
End memoize.

(** * AbstractLinkParser *)

(** The exception classes of [itsdangerous.exc] below [BadData]. *)
Definition is_BadData (name : string) : bool :=
  bool_decide (name ∈ ["BadData"; "BadSignature"; "BadTimeSignature";
                       "SignatureExpired"; "BadHeader"; "BadPayload"]).

(** [TJWSS(secret_key)] and [TJWSS(secret_key, expires_in=n)]. *)
Record TJWSS : Type := {
  secret_key : value;
  expires_in : option Z
}.

(** What the module takes from outside: [dumps] and [loads] of the
    serializer of [itsdangerous], whose exceptions are [Raised] under their
    class names, and [bytes.decode("utf-8")], which is [None] where it raises
    [UnicodeDecodeError].  A [payload] is whatever object was signed: a
    dictionary, a list, a number. *)
Class Itsdangerous : Type := {
  payload : Type;
  dumps : TJWSS -> payload -> list Byte.byte;
  loads : TJWSS -> string -> result payload;
  decode_utf8 : list Byte.byte -> option string
}.

(** The [uri] argument of [decode_uri]: a [str], a [bytes], or anything
    else. *)
Inductive uri_argument : Type :=
| uri_str (s : string)
| uri_bytes (b : list Byte.byte)
| uri_other (v : value).

Module AbstractLinkParser.
Section with_library.
Context `{Itsdangerous}.

Definition serializer (secret_key : value) (expires_in : Z) : TJWSS :=
  if (expires_in <? 0)%Z
  then {| secret_key := secret_key; expires_in := None |}
  else {| secret_key := secret_key; expires_in := Some expires_in |}.

Definition decode (b : list Byte.byte) : result string :=
  match decode_utf8 b with
  | Some s => Ok s
  | None => Err (Raised "UnicodeDecodeError")
  end.

Definition generate_uri (data : payload) (secret_key : value)
    (expires_in : Z) : result string :=
  decode (dumps (serializer secret_key expires_in) data).

(** The [try] block of [decode_uri]. *)
Definition decode_uri_try (uri : uri_argument) (secret_key : value)
    : result payload :=
  uri ← match uri with
        | uri_str s => Ok s
        | uri_bytes b => decode b
        | uri_other _ => Err (ValueError "")
        end;
  loads (serializer secret_key (-1)) uri.

(** [decode_uri]: the two [except] clauses bind [loaded] as well; after any
    other exception [loaded] is unbound when [finally] returns it, and that
    [UnboundLocalError] takes the place of the exception.  (The parameters
    [on_expired] and [on_failure] are not used by the body.)  What is
    returned is the payload [loads] gave, whatever it is, on the left, or a
    dictionary made here, on the right. *)
Definition decode_uri (uri : uri_argument) (secret_key : value)
    : result (payload + gmap string value) :=
  match decode_uri_try uri secret_key with
  | Ok loaded => Ok (inl loaded)
  | Err (Raised name) =>
      if String.eqb name "SignatureExpired"
      then Ok (inr {[ "error" := VStr "Link has expired." ]})
      else if is_BadData name
      then Ok (inr {[ "error" := VStr "Link is invalid." ]})
      else Err (Raised "UnboundLocalError")
  | Err _ => Err (Raised "UnboundLocalError")
  end.

End with_library.
End AbstractLinkParser.

(** * Vocabulary of the properties *)

(** Presence of an attribute, and presence of a callable attribute. *)
Definition has (sub : candidate) (name : string) : bool :=
  bool_decide (is_Some (sub !! name)).

Definition has_callable (sub : candidate) (name : string) : bool :=
  match sub !! name with
  | Some v => is_callable v
  | None => false
  end.

Definition link_required (sub : candidate) : bool :=
  (has_callable sub "__enter__" && has_callable sub "__exit__"
   || has_callable sub "__aenter__" && has_callable sub "__aexit__")
  && has_callable sub "generate_uri" && has_callable sub "decode_uri".

Definition registry_required (sub : candidate) : bool :=
  (has_callable sub "create" || has_callable sub "async_create")
  && (has_callable sub "delete" || has_callable sub "async_delete")
  && has sub "__keystore__"
  && has_callable sub "__setitem__"
  && has_callable sub "__getitem__"
  && (has_callable sub "retrieve" || has_callable sub "async_retrieve").

Definition action_required (sub : candidate) : bool :=
  has sub "__behavior__" && has_callable sub "__call__"
  || has sub "__async_behavior__" && has_callable sub "__await__".

Definition context_manager (sub : candidate) : bool :=
  has_callable sub "__aenter__" && has_callable sub "__aexit__"
  || has_callable sub "__enter__" && has_callable sub "__exit__".

(** What the download and upload checks answer, by cases on the members;
    the [before] hook does not enter it. *)
Definition hooks_answer (sub : candidate) (before after : string) : value :=
  if context_manager sub && has_callable sub after then True_
  else VNotImplemented.

Definition exposes (sub : candidate) (name : string) : Prop :=
  is_Some (sub !! name).

Definition exposes_callable (sub : candidate) (name : string) : Prop :=
  exists v, sub !! name = Some v /\ is_callable v = true.

(** The members the registry role asks for. *)
Definition registry_members (sub : candidate) : Prop :=
  (exposes_callable sub "create" \/ exposes_callable sub "async_create") /\
  (exposes_callable sub "delete" \/ exposes_callable sub "async_delete") /\
  exposes sub "__keystore__" /\
  exposes_callable sub "__setitem__" /\
  exposes_callable sub "__getitem__" /\
  (exposes_callable sub "retrieve" \/ exposes_callable sub "async_retrieve").

(** The names of the context-manager members. *)
Definition is_context_manager_name (name : string) : bool :=
  bool_decide (name ∈ ["__enter__"; "__exit__"; "__aenter__"; "__aexit__"]).

(** A candidate with [__enter__], [__exit__] and [after_download], and no
    [before_download]. *)
Definition without_before_download : candidate :=
  {[ "__enter__" := VFunc 0; "__exit__" := VFunc 1;
     "after_download" := VFunc 2 ]}.

(** The way the spec words the merge of the named arguments: the call's own
    first, the bound ones for the names that remain. *)
Definition merge_as_specified (call_site bound : kwargs) : kwargs :=
  call_site ++ filter (fun kv => kv.1 ∉ call_site.*1) bound.

(** A program to run the classes on: function 0 is [lambda x: x], function 1 is
    [lambda *args, **kwargs: len(args) + len(kwargs)], and every other
    function raises. *)
Definition sample_program : Program := {|
  def_body f args kw :=
    match f with
    | 0 =>
        match args, kw with
        | [x], [] => Ok x
        | [], [(name, x)] =>
            if String.eqb name "x" then Ok x
            else Err (TypeError unexpected_arguments)
        | _, _ => Err (TypeError unexpected_arguments)
        end
    | 1 => Ok (VInt (Z.of_nat (length args + length kw)))
    | _ => Err (Raised "RuntimeError")
    end;
  async_def_binds _ _ _ := true
|}.

(** The instance [AbstractAction(f1)] builds. *)
Definition some_action : instance :=
  {[ "_behavior_store" := VGeneric (VFunc 1) [] [] ]}.

(** A message names a class when the class name occurs in it. *)
Definition mentions (msg name : string) : Prop :=
  exists pre post : string, msg = pre +:+ name +:+ post.

(** A function to memoize, which reads a number from the world outside:
    it raises when the number is negative and returns it otherwise. *)
Definition read_number (world : Z) (args : list value) (kw : kwargs)
    : result value :=
  if (world <? 0)%Z then Err (Raised "OSError") else Ok (VInt world).

(** A serializer to run the link parser on: the token [old] has expired,
    the token [forged] has a bad signature, any other token carries itself
    as payload. *)
Definition sample_library : Itsdangerous := {|
  payload := gmap string value;
  dumps _ _ := [];
  loads _ s :=
    if String.eqb s "old" then Err (Raised "SignatureExpired")
    else if String.eqb s "forged" then Err (Raised "BadSignature")
    else Ok {[ "func" := VStr s ]};
  decode_utf8 b := Some (string_of_list_byte b)
|}.

(** A lookup that returns, or raises [AttributeError]. *)
Definition quiet (outcome : result value) : bool :=
  match outcome with
  | Ok _ | Err (AttributeError _) => true
  | Err _ => false
  end.

(** A candidate none of whose attributes raises anything but
    [AttributeError] when it is looked up. *)
Definition raises_only_AttributeError (sub : live_candidate) : bool :=
  bool_decide (map_Forall (fun _ outcome => quiet outcome = true) sub).

(** The attributes of a candidate whose lookup returns. *)
Definition settled (sub : live_candidate) : candidate :=
  omap (fun outcome => match outcome with Ok v => Some v | Err _ => None end)
    sub.


(** * Properties *)

(** ** The capability checks as boolean formulas *)

Lemma and_bool (a b : bool) :
  (Ok (VBool a) <and> Ok (VBool b))%py = Ok (VBool (a && b)).
Proof. destruct a; reflexivity. Qed.

Lemma or_bool (a b : bool) :
  (Ok (VBool a) <or> Ok (VBool b))%py = Ok (VBool (a || b)).
Proof. destruct a; reflexivity. Qed.

Lemma or_NotImplemented (a : bool) :
  (Ok (VBool a) <or> Ok VNotImplemented)%py
  = Ok (if a then True_ else VNotImplemented).
Proof. destruct a; reflexivity. Qed.

Lemma hasattr_has sub name : hasattr sub name = Ok (VBool (has sub name)).
Proof. reflexivity. Qed.

(** The guard [hasattr(sub, n) and callable(sub.n)] never reaches a missing
    attribute. *)
Lemma guarded_callable sub name :
  (hasattr sub name <and> callable (getattr sub name))%py
  = Ok (VBool (has_callable sub name)).
Proof.
  unfold hasattr, getattr, callable, has_callable, py_and.
  destruct (sub !! name) as [v|]; reflexivity.
Qed.

Lemma guarded_callable_after (a : bool) sub name :
  (Ok (VBool a) <and> hasattr sub name <and> callable (getattr sub name))%py
  = Ok (VBool (a && has_callable sub name)).
Proof.
  unfold hasattr, getattr, callable, has_callable, py_and.
  destruct a, (sub !! name) as [v|]; reflexivity.
Qed.

(** The same guard in the order the download and upload checks write it. *)
Lemma guarded_callable_pair sub n1 n2 :
  (hasattr sub n1 <and> hasattr sub n2 <and>
   callable (getattr sub n1) <and> callable (getattr sub n2))%py
  = Ok (VBool (has_callable sub n1 && has_callable sub n2)).
Proof.
  unfold hasattr, getattr, callable, has_callable, py_and.
  destruct (sub !! n1) as [v1|], (sub !! n2) as [v2|]; simpl;
    try reflexivity; destruct (is_callable v1); reflexivity.
Qed.

Ltac to_bool :=
  repeat first
    [ rewrite guarded_callable_pair
    | rewrite guarded_callable_after
    | rewrite guarded_callable
    | rewrite and_bool
    | rewrite or_bool
    | rewrite hasattr_has ].

Lemma link_hook_bool sub :
  LinkInterface.__subclasshook__ sub = Ok (VBool (link_required sub)).
Proof.
  unfold LinkInterface.__subclasshook__, link_required. to_bool.
  reflexivity.
Qed.

Lemma registry_hook_bool sub :
  RegistryInterface.__subclasshook__ sub = Ok (VBool (registry_required sub)).
Proof.
  unfold RegistryInterface.__subclasshook__, registry_required. to_bool.
  reflexivity.
Qed.

Lemma action_hook_bool sub :
  ActionInterface.__subclasshook__ sub = Ok (VBool (action_required sub)).
Proof.
  unfold ActionInterface.__subclasshook__, action_required. to_bool.
  f_equal. f_equal.
  destruct (has sub "__behavior__"), (has_callable sub "__call__"),
    (has_callable sub "__enter__"), (has_callable sub "__exit__"),
    (has sub "__async_behavior__"), (has_callable sub "__await__"),
    (has_callable sub "__aenter__"), (has_callable sub "__aexit__");
    reflexivity.
Qed.

Lemma download_hook_answer sub :
  DownloadInterface.__subclasshook__ sub
  = Ok (hooks_answer sub "before_download" "after_download").
Proof.
  unfold DownloadInterface.__subclasshook__, hooks_answer, context_manager.
  to_bool. rewrite !or_NotImplemented.
  destruct (has_callable sub "__aenter__"), (has_callable sub "__aexit__"),
    (has_callable sub "__enter__"), (has_callable sub "__exit__"),
    (has_callable sub "before_download"), (has_callable sub "after_download");
    reflexivity.
Qed.

Lemma upload_hook_answer sub :
  UploadInterface.__subclasshook__ sub
  = Ok (hooks_answer sub "before_upload" "after_upload").
Proof.
  unfold UploadInterface.__subclasshook__, hooks_answer, context_manager.
  to_bool. rewrite !or_NotImplemented.
  destruct (has_callable sub "__aenter__"), (has_callable sub "__aexit__"),
    (has_callable sub "__enter__"), (has_callable sub "__exit__"),
    (has_callable sub "before_upload"), (has_callable sub "after_upload");
    reflexivity.
Qed.

(** ** Members of a candidate, as propositions *)

Lemma has_exposes sub name : has sub name = true <-> exposes sub name.
Proof. unfold has, exposes. apply bool_decide_eq_true. Qed.

Lemma has_callable_exposes sub name :
  has_callable sub name = true <-> exposes_callable sub name.
Proof.
  unfold has_callable, exposes_callable. destruct (sub !! name) as [v|].
  - split; [intros Hc; exists v; auto | intros (w & Hw & Hc); congruence].
  - split; [discriminate | intros (w & Hw & _); discriminate].
Qed.

Lemma registry_required_members sub :
  registry_required sub = true <-> registry_members sub.
Proof.
  unfold registry_required, registry_members.
  rewrite !andb_true_iff, !orb_true_iff, !has_callable_exposes, has_exposes.
  tauto.
Qed.

Lemma answer_true_iff (b : bool) : Ok (VBool b) = Ok True_ <-> b = true.
Proof.
  unfold True_. split; [intros Heq; injection Heq as Hb; exact Hb | ].
  intros ->. reflexivity.
Qed.

Lemma registry_accepts_iff sub :
  RegistryInterface.__subclasshook__ sub = Ok True_ <-> registry_members sub.
Proof.
  rewrite registry_hook_bool, <- registry_required_members.
  apply answer_true_iff.
Qed.

Lemma action_required_insert sub name v :
  is_context_manager_name name = true ->
  action_required (<[name := v]> sub) = action_required sub.
Proof.
  intros Hn. apply bool_decide_eq_true in Hn.
  unfold action_required, has, has_callable.
  repeat (apply elem_of_cons in Hn as [-> | Hn]);
    [ | | | | apply elem_of_nil in Hn; contradiction ];
    rewrite !lookup_insert_ne by discriminate; reflexivity.
Qed.

Lemma action_required_delete sub name :
  is_context_manager_name name = true ->
  action_required (delete name sub) = action_required sub.
Proof.
  intros Hn. apply bool_decide_eq_true in Hn.
  unfold action_required, has, has_callable.
  repeat (apply elem_of_cons in Hn as [-> | Hn]);
    [ | | | | apply elem_of_nil in Hn; contradiction ];
    rewrite !lookup_delete_ne by discriminate; reflexivity.
Qed.

Lemma hooks_answer_cases sub before after :
  hooks_answer sub before after = True_
  \/ hooks_answer sub before after = VNotImplemented.
Proof.
  unfold hooks_answer.
  destruct (context_manager sub && has_callable sub after); auto.
Qed.

(** ** The checks on candidates whose lookups can raise *)

Lemma quiet_lookup (sub : live_candidate) (name : string) :
  raises_only_AttributeError sub = true ->
  quiet (lookup_attribute sub name) = true.
Proof.
  intros Hq. apply bool_decide_eq_true in Hq. unfold lookup_attribute.
  destruct (sub !! name) as [outcome|] eqn:Hl; [ | reflexivity ].
  exact (Hq name outcome Hl).
Qed.

Lemma settled_lookup (sub : live_candidate) (name : string) :
  settled sub !! name
  = match lookup_attribute sub name with
    | Ok v => Some v
    | Err _ => None
    end.
Proof.
  unfold settled, lookup_attribute. rewrite lookup_omap.
  destruct (sub !! name) as [[v | e]|]; reflexivity.
Qed.

Lemma live_hasattr (sub : live_candidate) (name : string) :
  quiet (lookup_attribute sub name) = true ->
  Live.hasattr sub name = Ok (VBool (has (settled sub) name)).
Proof.
  intros Hq. unfold Live.hasattr, has. rewrite settled_lookup.
  destruct (lookup_attribute sub name) as [v | []];
    try discriminate; reflexivity.
Qed.

(** The guard keeps the second lookup from a name whose first lookup raised
    [AttributeError]. *)
Lemma live_guarded_callable (sub : live_candidate) (name : string) :
  quiet (lookup_attribute sub name) = true ->
  (Live.hasattr sub name <and> callable (Live.getattr sub name))%py
  = Ok (VBool (has_callable (settled sub) name)).
Proof.
  intros Hq. unfold Live.hasattr, Live.getattr, callable, has_callable, py_and.
  rewrite settled_lookup.
  destruct (lookup_attribute sub name) as [v | []];
    try discriminate; reflexivity.
Qed.

Lemma live_guarded_callable_after (a : bool) (sub : live_candidate)
    (name : string) :
  quiet (lookup_attribute sub name) = true ->
  (Ok (VBool a) <and> Live.hasattr sub name
   <and> callable (Live.getattr sub name))%py
  = Ok (VBool (a && has_callable (settled sub) name)).
Proof.
  intros Hq. unfold Live.hasattr, Live.getattr, callable, has_callable, py_and.
  rewrite settled_lookup.
  destruct a, (lookup_attribute sub name) as [v | []];
    try discriminate; reflexivity.
Qed.

Lemma live_guarded_callable_pair (sub : live_candidate) (n1 n2 : string) :
  quiet (lookup_attribute sub n1) = true ->
  quiet (lookup_attribute sub n2) = true ->
  (Live.hasattr sub n1 <and> Live.hasattr sub n2 <and>
   callable (Live.getattr sub n1) <and> callable (Live.getattr sub n2))%py
  = Ok (VBool (has_callable (settled sub) n1 && has_callable (settled sub) n2)).
Proof.
  intros Hq1 Hq2.
  unfold Live.hasattr, Live.getattr, callable, has_callable, py_and.
  rewrite !settled_lookup.
  destruct (lookup_attribute sub n1) as [v1 | []],
    (lookup_attribute sub n2) as [v2 | []];
    try discriminate; simpl; try reflexivity;
    destruct (is_callable v1); reflexivity.
Qed.

Ltac live_to_bool Hq :=
  repeat first
    [ rewrite live_guarded_callable_pair by apply Hq
    | rewrite live_guarded_callable_after by apply Hq
    | rewrite live_guarded_callable by apply Hq
    | rewrite and_bool
    | rewrite or_bool
    | rewrite live_hasattr by apply Hq ].

(** On a candidate whose lookups raise nothing but [AttributeError], every
    check answers what it answers on the attributes whose lookup returns. *)
Lemma live_satisfies_settled (sub : live_candidate) (r : role) :
  raises_only_AttributeError sub = true ->
  Live.satisfies sub r = satisfies (settled sub) r.
Proof.
  intros Hquiet. pose proof (fun name => quiet_lookup sub name Hquiet) as Hq.
  destruct r; simpl.
  - rewrite link_hook_bool. unfold Live.LinkInterface.__subclasshook__.
    live_to_bool Hq. reflexivity.
  - rewrite registry_hook_bool.
    unfold Live.RegistryInterface.__subclasshook__.
    live_to_bool Hq. reflexivity.
  - unfold Live.ActionInterface.__subclasshook__,
      ActionInterface.__subclasshook__.
    live_to_bool Hq. to_bool. reflexivity.
  - unfold Live.DownloadInterface.__subclasshook__,
      DownloadInterface.__subclasshook__.
    live_to_bool Hq. to_bool. reflexivity.
  - unfold Live.UploadInterface.__subclasshook__,
      UploadInterface.__subclasshook__.
    live_to_bool Hq. to_bool. reflexivity.
Qed.

(** A candidate whose every lookup returns is checked as the plain set of
    its attributes. *)
Lemma live_satisfies_plain (sub : candidate) (r : role) :
  Live.satisfies (Ok <$> sub) r = satisfies sub r.
Proof.
  assert (Hquiet : raises_only_AttributeError (Ok <$> sub) = true).
  { apply bool_decide_eq_true. intros name outcome Hl.
    rewrite lookup_fmap in Hl. destruct (sub !! name); [ | discriminate ].
    injection Hl as <-. reflexivity. }
  rewrite live_satisfies_settled by exact Hquiet. f_equal.
  apply map_eq. intros name. unfold settled.
  rewrite lookup_omap, lookup_fmap. destruct (sub !! name); reflexivity.
Qed.

(** ** The claims about the capability checks *)

(** C5: a candidate passes the registry check exactly when it exposes a
    callable [create] or [async_create], a callable [delete] or
    [async_delete], a [__keystore__] attribute, a callable [__setitem__], a
    callable [__getitem__], and a callable [retrieve] or [async_retrieve];
    the check answers a boolean, and a candidate exposing nothing but a
    creation entry point is answered [False]. *)
Theorem registry_check_iff_members : forall (sub : candidate),
  (satisfies sub registry = Ok True_ <->
     (exposes_callable sub "create" \/ exposes_callable sub "async_create") /\
     (exposes_callable sub "delete" \/ exposes_callable sub "async_delete") /\
     exposes sub "__keystore__" /\
     exposes_callable sub "__setitem__" /\
     exposes_callable sub "__getitem__" /\
     (exposes_callable sub "retrieve" \/ exposes_callable sub "async_retrieve"))
  /\ (satisfies sub registry = Ok True_ \/ satisfies sub registry = Ok False_)
  /\ (forall f : value,
        satisfies {[ "create" := f ]} registry = Ok False_
        /\ satisfies {[ "async_create" := f ]} registry = Ok False_).
Proof.
  intros sub. split; [ | split ].
  - apply registry_accepts_iff.
  - simpl. rewrite registry_hook_bool.
    destruct (registry_required sub); [left | right]; reflexivity.
  - intros f. simpl. rewrite !registry_hook_bool.
    split; f_equal; unfold False_; f_equal;
      unfold registry_required;
      replace (has_callable _ "delete") with false by (vm_compute; reflexivity);
      replace (has_callable _ "async_delete") with false
        by (vm_compute; reflexivity);
      rewrite andb_false_r; reflexivity.
Qed.




(** C7 as stated fails: the registry check has no [or NotImplemented] in it,
    and accepts no candidate that lacks one of the members it asks for. *)
Lemma registry_check_has_no_noop :
  ~ (exists sub : candidate,
       ~ registry_members sub /\ satisfies sub registry = Ok True_).
Proof.
  intros (sub & Hlacks & Hacc). apply Hlacks.
  apply registry_accepts_iff. exact Hacc.
Qed.

(** C7 (as amended): the always-true [or NotImplemented] sits in the download
    check, not in the registry check.  There the test of [before_download] is
    a no-op: a candidate lacking [before_download] is accepted, and whether
    [before_download] is there never changes the answer.  The registry check
    accepts only candidates that have every member it asks for. *)
Theorem download_check_has_noop :
  (exists sub : candidate,
     sub !! "before_download" = None /\ satisfies sub download = Ok True_)
  /\ (forall (sub : candidate) (v : value),
        satisfies (<["before_download" := v]> sub) download
        = satisfies (delete "before_download" sub) download)
  /\ (forall sub : candidate,
        satisfies sub registry = Ok (VBool (registry_required sub))).
Proof.
  split; [ | split ].
  - exists without_before_download. split; vm_compute; reflexivity.
  - intros sub v. simpl. rewrite !download_hook_answer.
    unfold hooks_answer, context_manager, has_callable.
    rewrite !lookup_insert_ne, !lookup_delete_ne by discriminate.
    reflexivity.
  - intros sub. apply registry_hook_bool.
Qed.

(** C9: the action check accepts a candidate exactly when it has a
    [__behavior__] attribute and a callable [__call__], or an
    [__async_behavior__] attribute and a callable [__await__]; adding or
    removing [__enter__], [__exit__], [__aenter__] or [__aexit__] never
    changes its answer. *)
Theorem action_check_context_manager_redundant :
  forall (sub : candidate) (name : string) (v : value),
    is_context_manager_name name = true ->
    (satisfies sub action = Ok True_ <->
       exposes sub "__behavior__" /\ exposes_callable sub "__call__"
       \/ exposes sub "__async_behavior__" /\ exposes_callable sub "__await__")
    /\ (satisfies sub action = Ok True_ \/ satisfies sub action = Ok False_)
    /\ satisfies (<[name := v]> sub) action = satisfies sub action
    /\ satisfies (delete name sub) action = satisfies sub action.
Proof.
  intros sub name v Hn. simpl. rewrite !action_hook_bool.
  rewrite action_required_insert, action_required_delete by exact Hn.
  split; [ | split; [ | split; reflexivity ] ].
  - rewrite answer_true_iff. unfold action_required.
    rewrite orb_true_iff, !andb_true_iff, !has_exposes,
      !has_callable_exposes. reflexivity.
  - destruct (action_required sub); [left | right]; reflexivity.
Qed.

Lemma action_check_context_manager_redundant_witness :
  satisfies (<["__enter__" := VInt 7]>
               {[ "__behavior__" := VNone; "__call__" := VFunc 0 ]}) action
  = satisfies {[ "__behavior__" := VNone; "__call__" := VFunc 0 ]} action.
Proof.
  apply (action_check_context_manager_redundant
           {[ "__behavior__" := VNone; "__call__" := VFunc 0 ]}
           "__enter__" (VInt 7)).
  reflexivity.
Defined.

(** C10: the download check never answers [False]: for every candidate it
    answers [True] or [NotImplemented], both of them true values, and a
    candidate without any member is answered [NotImplemented]. *)
Theorem download_check_never_false : forall sub : candidate,
  (exists v : value,
     DownloadInterface.__subclasshook__ sub = Ok v
     /\ (v = True_ \/ v = VNotImplemented)
     /\ truthy v = true)
  /\ DownloadInterface.__subclasshook__ sub <> Ok False_
  /\ DownloadInterface.__subclasshook__ ∅ = Ok VNotImplemented.
Proof.
  intros sub. rewrite download_hook_answer.
  destruct (hooks_answer_cases sub "before_download" "after_download")
    as [-> | ->].
  - split; [ | split ]; [ | discriminate | reflexivity ].
    exists True_. auto.
  - split; [ | split ]; [ | discriminate | reflexivity ].
    exists VNotImplemented. auto.
Qed.

(** ** Calling through the wrapper *)

Lemma dict_merge_nil (kw : kwargs) : dict_merge kw [] = Ok kw.
Proof. reflexivity. Qed.

(** Bound names that are all new are appended in their order. *)
Lemma dict_merge_disjoint (bound kw : kwargs) :
  NoDup bound.*1 ->
  Forall (fun k => k ∉ bound.*1) kw.*1 ->
  dict_merge kw bound = Ok (kw ++ bound).
Proof.
  revert kw. induction bound as [| [k v] rest IH]; intros kw Hnd Hdis.
  - simpl. rewrite app_nil_r. reflexivity.
  - simpl in *. apply NoDup_cons in Hnd as [Hk Hnd].
    rewrite bool_decide_eq_false_2.
    + rewrite IH.
      * rewrite <- app_assoc. reflexivity.
      * exact Hnd.
      * rewrite fmap_app, Forall_app. split.
        -- eapply Forall_impl; [exact Hdis|].
           intros x Hx Hin. apply Hx. right. exact Hin.
        -- simpl. apply Forall_singleton. exact Hk.
    + intros Hin. rewrite Forall_forall in Hdis.
      apply (Hdis k Hin). left.
Qed.

(** A name given at the call site and bound as well stops the call. *)
Lemma dict_merge_overlap (bound kw : kwargs) (k : string) :
  k ∈ kw.*1 -> k ∈ bound.*1 ->
  exists k', dict_merge kw bound = Err (TypeError (multiple_values_for_keyword k')).
Proof.
  revert kw. induction bound as [| [k0 v0] rest IH]; intros kw Hkw Hb.
  - apply elem_of_nil in Hb. contradiction.
  - simpl. destruct (bool_decide (k0 ∈ kw.*1)) eqn:Hk0.
    + eexists. reflexivity.
    + apply bool_decide_eq_false in Hk0. apply IH.
      * rewrite fmap_app. apply elem_of_app. left. exact Hkw.
      * simpl in Hb. apply elem_of_cons in Hb as [-> | Hb];
          [contradiction | exact Hb].
Qed.

(** The name a repeated keyword is reported under is one that is both bound
    and given at the call site. *)
Lemma dict_merge_overlap_name (bound d : kwargs) (k : string) :
  NoDup bound.*1 -> k ∈ d.*1 -> k ∈ bound.*1 ->
  exists k', k' ∈ d.*1 /\ k' ∈ bound.*1
    /\ dict_merge d bound = Err (TypeError (multiple_values_for_keyword k')).
Proof.
  revert d. induction bound as [| [k0 v0] rest IH]; intros d Hnd Hd Hb.
  - apply elem_of_nil in Hb. contradiction.
  - simpl in *. apply NoDup_cons in Hnd as [Hk0 Hnd].
    destruct (bool_decide (k0 ∈ d.*1)) eqn:Hdec.
    + apply bool_decide_eq_true in Hdec. exists k0.
      split; [exact Hdec|]. split; [left | reflexivity].
    + apply bool_decide_eq_false in Hdec.
      apply elem_of_cons in Hb as [-> | Hb]; [contradiction|].
      destruct (IH (d ++ [(k0, v0)]) Hnd) as (k' & Hk'd & Hk'r & Herr).
      * rewrite fmap_app. apply elem_of_app. left. exact Hd.
      * exact Hb.
      * exists k'. rewrite fmap_app in Hk'd.
        apply elem_of_app in Hk'd as [Hk'd | Hk'0].
        -- split; [exact Hk'd|]. split; [right; exact Hk'r | exact Herr].
        -- simpl in Hk'0. apply list_elem_of_singleton in Hk'0. subst k'.
           contradiction.
Qed.

(** A keyword that names no filled parameter is let through. *)
Lemma first_repeated_none (filled : list string) (kw : kwargs) :
  Forall (fun k => k ∉ filled) kw.*1 -> first_repeated filled kw = None.
Proof.
  induction kw as [| [k v] rest IH]; intros Hall; [reflexivity|].
  simpl in *. apply Forall_cons in Hall as [Hk Hrest].
  rewrite bool_decide_eq_false_2 by exact Hk. apply IH. exact Hrest.
Qed.

Lemma first_repeated_self (kw : kwargs) :
  "self" ∈ kw.*1 -> first_repeated ["self"] kw = Some "self".
Proof.
  induction kw as [| [k v] rest IH]; intros Hin.
  - apply elem_of_nil in Hin. contradiction.
  - simpl in *. destruct (bool_decide (k ∈ ["self"])) eqn:Hk.
    + apply bool_decide_eq_true, list_elem_of_singleton in Hk.
      subst k. reflexivity.
    + apply bool_decide_eq_false in Hk.
      apply elem_of_cons in Hin as [<- | Hin]; [ | exact (IH Hin) ].
      exfalso. apply Hk. left.
Qed.

Lemma bind_self_ok (kw : kwargs) : "self" ∉ kw.*1 -> bind_self kw = Ok kw.
Proof.
  intros Hself. unfold bind_self. rewrite first_repeated_none; [reflexivity|].
  apply Forall_forall. intros k Hk Hin.
  apply list_elem_of_singleton in Hin. subst k. contradiction.
Qed.

Lemma bind_self_refused (kw : kwargs) :
  "self" ∈ kw.*1 ->
  bind_self kw = Err (TypeError (multiple_values_for_keyword "self")).
Proof.
  intros Hself. unfold bind_self. rewrite first_repeated_self by exact Hself.
  reflexivity.
Qed.

(** One positional argument and keywords other than [self] and [name]. *)
Lemma bind_self_optional_positional (name : string) (v : value) (kw : kwargs) :
  "self" ∉ kw.*1 -> name ∉ kw.*1 ->
  bind_self_optional name [v] kw = Ok (v, kw).
Proof.
  intros Hself Hname. unfold bind_self_optional.
  rewrite first_repeated_none; [reflexivity|].
  apply Forall_forall. intros k Hk Hin.
  apply elem_of_cons in Hin as [-> | Hin]; [contradiction|].
  apply list_elem_of_singleton in Hin. subst k. contradiction.
Qed.

(** No positional argument and keywords other than [self] and [name]. *)
Lemma bind_self_optional_default (name : string) (kw : kwargs) :
  "self" ∉ kw.*1 -> name ∉ kw.*1 ->
  bind_self_optional name [] kw = Ok (VNone, kw).
Proof.
  intros Hself Hname. unfold bind_self_optional.
  rewrite first_repeated_none.
  - assert (Hkeep : filter (fun kv : string * value => kv.1 <> name) kw = kw).
    { clear Hself. induction kw as [| [k v] rest IH]; [reflexivity|].
      simpl in Hname. apply not_elem_of_cons in Hname as [Hne Hrest].
      rewrite filter_cons_True by (simpl; congruence).
      f_equal. apply IH. exact Hrest. }
    assert (Hnone : filter (fun kv : string * value => kv.1 = name) kw = []).
    { clear Hself Hkeep. induction kw as [| [k v] rest IH]; [reflexivity|].
      simpl in Hname. apply not_elem_of_cons in Hname as [Hne Hrest].
      rewrite filter_cons_False by (simpl; congruence).
      apply IH. exact Hrest. }
    rewrite Hkeep, Hnone. reflexivity.
  - apply Forall_forall. intros k Hk Hin.
    apply list_elem_of_singleton in Hin. subst k. contradiction.
Qed.

Section with_program.
Context `{Program}.

Lemma call_wrapper Func bound_args bound_kw args kw :
  call (VGeneric Func bound_args bound_kw) args kw
  = _generic (call Func) bound_args bound_kw args kw.
Proof. reflexivity. Qed.

(** A wrapper without bound values calls [Func] with the call's own
    arguments. *)
Lemma call_wrapper_unbound Func args kw :
  call (VGeneric Func [] []) args kw = call Func args kw.
Proof.
  rewrite call_wrapper. unfold _generic. rewrite dict_merge_nil. simpl.
  rewrite app_nil_r. reflexivity.
Qed.

Lemma sync_setter_accepts (a : instance) (f : value) args kw :
  is_None f = false -> iscoroutinefunction f = false ->
  AbstractAction.__behavior___setter a f args kw
  = Ok (<["_behavior_store" := AbstractAction._gen_wrapper f args kw]> a).
Proof.
  intros Hn Hc. unfold AbstractAction.__behavior___setter.
  rewrite Hn, Hc. reflexivity.
Qed.

Lemma call_after_store (a : instance) (w : value) args kw :
  "self" ∉ kw.*1 ->
  AbstractAction.__call__ (<["_behavior_store" := w]> a) args kw
  = call w args kw.
Proof.
  intros Hself.
  unfold AbstractAction.__call__, AbstractAction.__behavior__, getattr.
  rewrite (bind_self_ok kw Hself), lookup_insert_eq. reflexivity.
Qed.

(** A keyword named [self] stops the call of an Action at the binding. *)
Lemma call_keyword_self (a : instance) args kw :
  "self" ∈ kw.*1 ->
  AbstractAction.__call__ a args kw
  = Err (TypeError (multiple_values_for_keyword "self")).
Proof.
  intros Hself. unfold AbstractAction.__call__.
  rewrite (bind_self_refused kw Hself). reflexivity.
Qed.

(** With a name both bound and given at the call site the wrapper raises
    before [Func] is reached. *)
Lemma call_wrapper_overlap Func bound_args bound_kw args kw (k : string) :
  k ∈ kw.*1 -> k ∈ bound_kw.*1 ->
  exists k',
    call (VGeneric Func bound_args bound_kw) args kw
    = Err (TypeError (multiple_values_for_keyword k')).
Proof.
  intros Hkw Hb. destruct (dict_merge_overlap bound_kw kw k Hkw Hb) as [k' Hk'].
  exists k'. rewrite call_wrapper. unfold _generic. rewrite Hk'. reflexivity.
Qed.

End with_program.

Lemma merge_as_specified_disjoint (call_site bound : kwargs) :
  Forall (fun k => k ∉ bound.*1) call_site.*1 ->
  merge_as_specified call_site bound = call_site ++ bound.
Proof.
  intros Hdis. unfold merge_as_specified. f_equal.
  induction bound as [| [k v] rest IH]; [reflexivity|].
  rewrite filter_cons_True.
  - f_equal. apply IH. eapply Forall_impl; [exact Hdis|].
    intros x Hx Hin. apply Hx. simpl. right. exact Hin.
  - simpl. intros Hin. rewrite Forall_forall in Hdis.
    apply (Hdis k Hin). simpl. left.
Qed.

(** ** The classes on the sample program *)

Example some_action_built :
  AbstractAction.__init__ [VFunc 1] [] = Ok some_action.
Proof. reflexivity. Qed.

Example echo_5 :
  @AbstractAction.__call__ sample_program
    (<["_behavior_store" := VGeneric (VFunc 0) [] []]> some_action)
    [VInt 5] [] = Ok (VInt 5).
Proof. reflexivity. Qed.

Lemma illegal_coroutine_names_async :
  mentions AbstractAction.illegal_coroutine "AbstractAsyncAction".
Proof.
  exists (String.substring 0 263 AbstractAction.illegal_coroutine),
    (String.substring (263 + 19) 7 AbstractAction.illegal_coroutine).
  vm_compute. reflexivity.
Qed.

Lemma illegal_non_coroutine_names_sync :
  mentions AbstractAsyncAction.illegal_non_coroutine "AbstractAction".
Proof.
  exists (String.substring 0 251 AbstractAsyncAction.illegal_non_coroutine),
    (String.substring (251 + 14) 7 AbstractAsyncAction.illegal_non_coroutine).
  vm_compute. reflexivity.
Qed.

(** ** The claims about the Action classes *)

(** C1 as stated fails: a keyword named [self] collides with the parameter
    [self] of [__call__], so the Action raises [TypeError] where function 1,
    which takes any keyword, returns. *)
Lemma invoke_keyword_self_differs :
  exists a' : instance,
    property_set AbstractAction.__behavior___setter some_action (VFunc 1) = Ok a'
    /\ @AbstractAction.__call__ sample_program a' [] [("self", VInt 7)]
       = Err (TypeError (multiple_values_for_keyword "self"))
    /\ @call sample_program (VFunc 1) [] [("self", VInt 7)] = Ok (VInt 1)
    /\ @AbstractAction.__call__ sample_program a' [] [("self", VInt 7)]
       <> @call sample_program (VFunc 1) [] [("self", VInt 7)].
Proof.
  eexists. split; [reflexivity|]. split; [reflexivity|].
  split; [reflexivity|]. vm_compute. discriminate.
Qed.

(** C1 (as amended): for every sync callable [f] and every sync Action [a],
    after [a.__behavior__ = f] the call of [a] with any positional arguments
    and any keyword arguments none of which is named [self] is exactly the
    call of [f] with those arguments: the same value, or the same
    exception. *)
Theorem invoke_after_set_behavior `{Program} :
  forall (a : instance) (f : value) (args : list value) (kw : kwargs),
    is_callable f = true ->
    iscoroutinefunction f = false ->
    "self" ∉ kw.*1 ->
    exists a' : instance,
      property_set AbstractAction.__behavior___setter a f = Ok a'
      /\ AbstractAction.__call__ a' args kw = call f args kw.
Proof.
  intros a f args kw Hcall Hsync Hself. unfold property_set.
  rewrite sync_setter_accepts;
    [ | destruct f; (discriminate || reflexivity) | exact Hsync ].
  eexists. split; [reflexivity|].
  rewrite call_after_store by exact Hself. apply call_wrapper_unbound.
Qed.

Lemma invoke_after_set_behavior_witness :
  exists a' : instance,
    property_set AbstractAction.__behavior___setter some_action (VFunc 0) = Ok a'
    /\ @AbstractAction.__call__ sample_program a' [] [("x", VInt 5)]
       = Ok (VInt 5).
Proof.
  apply (@invoke_after_set_behavior sample_program some_action (VFunc 0)
           [] [("x", VInt 5)]); compute_done.
Defined.

(** C2: a coroutine function assigned as the behavior of a sync Action is
    refused with the [ValueError] whose message names [AbstractAsyncAction],
    and a value that is no coroutine function assigned as the behavior of an
    async Action is refused with the [ValueError] whose message names
    [AbstractAction]; neither assignment changes the Action. *)
Theorem kind_mismatch_refused :
  forall (a : instance) (f g : value),
    iscoroutinefunction f = true ->
    iscoroutinefunction g = false ->
    (exists msg : string,
       property_set AbstractAction.__behavior___setter a f
       = Err (ValueError msg)
       /\ mentions msg "AbstractAsyncAction")
    /\ (exists msg : string,
          property_set AbstractAsyncAction.__async_behavior___setter a g
          = Err (ValueError msg)
          /\ mentions msg "AbstractAction").
Proof.
  intros a f g Hf Hg. unfold property_set. split.
  - exists AbstractAction.illegal_coroutine. split.
    + unfold AbstractAction.__behavior___setter. rewrite Hf.
      rewrite andb_false_r. reflexivity.
    + exact illegal_coroutine_names_async.
  - exists AbstractAsyncAction.illegal_non_coroutine. split.
    + unfold AbstractAsyncAction.__async_behavior___setter. rewrite Hg.
      rewrite andb_false_r. reflexivity.
    + exact illegal_non_coroutine_names_sync.
Qed.

Lemma kind_mismatch_refused_witness :
  (exists msg : string,
     property_set AbstractAction.__behavior___setter some_action (VCoroFunc 3)
     = Err (ValueError msg)
     /\ mentions msg "AbstractAsyncAction")
  /\ (exists msg : string,
        property_set AbstractAsyncAction.__async_behavior___setter
          some_action (VFunc 0)
        = Err (ValueError msg)
        /\ mentions msg "AbstractAction").
Proof.
  apply (kind_mismatch_refused some_action (VCoroFunc 3) (VFunc 0));
    reflexivity.
Defined.

(** C3 fails on the code: constructing an Action, sync or async, without an
    initial behavior, or with [None] for it, raises [ValueError] from the
    setter, whatever the other keyword arguments are (a keyword named [self],
    or named as the behavior parameter, is no other keyword); no instance
    with the placeholder is ever built. *)
Theorem construction_without_behavior_raises : forall kw kw' : kwargs,
  "self" ∉ kw.*1 ->
  "func" ∉ kw.*1 ->
  "self" ∉ kw'.*1 ->
  "coro" ∉ kw'.*1 ->
  AbstractAction.__init__ [] kw
  = Err (ValueError AbstractAction.illegal_coroutine)
  /\ AbstractAction.__init__ [VNone] kw
     = Err (ValueError AbstractAction.illegal_coroutine)
  /\ AbstractAsyncAction.__init__ [] kw'
     = Err (ValueError AbstractAsyncAction.illegal_non_coroutine)
  /\ AbstractAsyncAction.__init__ [VNone] kw'
     = Err (ValueError AbstractAsyncAction.illegal_non_coroutine).
Proof.
  intros kw kw' Hself Hfunc Hself' Hcoro.
  unfold AbstractAction.__init__, AbstractAsyncAction.__init__.
  rewrite !bind_self_optional_default, !bind_self_optional_positional
    by assumption.
  repeat split; reflexivity.
Qed.

Lemma construction_without_behavior_raises_witness :
  AbstractAction.__init__ [] []
  = Err (ValueError AbstractAction.illegal_coroutine)
  /\ AbstractAction.__init__ [VNone] []
     = Err (ValueError AbstractAction.illegal_coroutine)
  /\ AbstractAsyncAction.__init__ [] []
     = Err (ValueError AbstractAsyncAction.illegal_non_coroutine)
  /\ AbstractAsyncAction.__init__ [VNone] []
     = Err (ValueError AbstractAsyncAction.illegal_non_coroutine).
Proof.
  apply (construction_without_behavior_raises [] []); compute_done.
Defined.

(** C4 as stated fails: with [x] bound and [x] given at the call site the
    wrapper raises [TypeError] and never forwards, where the claim has
    function 1 called with two positionals and the call-site [x]. *)
Lemma wrapper_overlap_raises :
  @call sample_program
    (AbstractAction._gen_wrapper (VFunc 1) [VInt 10] [("x", VInt 1)])
    [VInt 20] [("x", VInt 2)]
  = Err (TypeError (multiple_values_for_keyword "x"))
  /\ @call sample_program (VFunc 1) ([VInt 20] ++ [VInt 10])
       (merge_as_specified [("x", VInt 2)] [("x", VInt 1)])
     = Ok (VInt 3)
  /\ @call sample_program
       (AbstractAction._gen_wrapper (VFunc 1) [VInt 10] [("x", VInt 1)])
       [VInt 20] [("x", VInt 2)]
     <> @call sample_program (VFunc 1) ([VInt 20] ++ [VInt 10])
          (merge_as_specified [("x", VInt 2)] [("x", VInt 1)]).
Proof.
  split; [ | split ]; [ reflexivity | reflexivity | ].
  vm_compute. discriminate.
Qed.

(** C4 (as amended): when no name is both bound and given at the call site,
    the wrapper of either class forwards to the original callable with the
    call-site positionals first and the bound positionals after them, and
    with the call-site keyword arguments first and the bound ones after
    them, which is then the merge the spec describes.  When some name is
    both bound and given at the call site, the call of the wrapper of either
    class fails with the [TypeError] of a repeated keyword, for a name that
    is in both, whatever the wrapped callable and the positional arguments
    are: nothing is forwarded. *)
Theorem wrapper_forwards_merged `{Program} :
  forall (Func : value) (Partial_Args : list value) (Partial_Kwargs : kwargs)
         (args : list value) (kw : kwargs),
    NoDup Partial_Kwargs.*1 ->
    (Forall (fun k => k ∉ Partial_Kwargs.*1) kw.*1 ->
     call (AbstractAction._gen_wrapper Func Partial_Args Partial_Kwargs) args kw
     = call Func (args ++ Partial_Args) (kw ++ Partial_Kwargs)
     /\ call (AbstractAsyncAction._gen_wrapper Func Partial_Args Partial_Kwargs)
          args kw
        = call Func (args ++ Partial_Args) (kw ++ Partial_Kwargs)
     /\ merge_as_specified kw Partial_Kwargs = kw ++ Partial_Kwargs)
    /\ (forall k : string,
          k ∈ kw.*1 -> k ∈ Partial_Kwargs.*1 ->
          exists k' : string,
            k' ∈ kw.*1 /\ k' ∈ Partial_Kwargs.*1
            /\ call (AbstractAction._gen_wrapper Func Partial_Args
                       Partial_Kwargs) args kw
               = Err (TypeError (multiple_values_for_keyword k'))
            /\ call (AbstractAsyncAction._gen_wrapper Func Partial_Args
                       Partial_Kwargs) args kw
               = Err (TypeError (multiple_values_for_keyword k'))).
Proof.
  intros Func pa pk args kw Hnd.
  unfold AbstractAction._gen_wrapper, AbstractAsyncAction._gen_wrapper.
  rewrite call_wrapper. unfold _generic. split.
  - intros Hdis. rewrite (dict_merge_disjoint pk kw Hnd Hdis). simpl.
    rewrite (merge_as_specified_disjoint kw pk Hdis). auto.
  - intros k Hkw Hpk.
    destruct (dict_merge_overlap_name pk kw k Hnd Hkw Hpk)
      as (k' & Hk'kw & Hk'pk & Herr).
    exists k'. rewrite Herr. auto.
Qed.

Lemma wrapper_forwards_merged_witness :
  @call sample_program
    (AbstractAction._gen_wrapper (VFunc 1) [VInt 10] [("y", VInt 1)])
    [VInt 20] [("x", VInt 2)]
  = @call sample_program (VFunc 1) [VInt 20; VInt 10]
      [("x", VInt 2); ("y", VInt 1)]
  /\ exists k' : string,
       k' ∈ [("a", VInt 0); ("y", VInt 2)].*1
       /\ k' ∈ [("y", VInt 1)].*1
       /\ @call sample_program
            (AbstractAction._gen_wrapper (VFunc 1) [VInt 10] [("y", VInt 1)])
            [VInt 20] [("a", VInt 0); ("y", VInt 2)]
          = Err (TypeError (multiple_values_for_keyword k'))
       /\ @call sample_program
            (AbstractAsyncAction._gen_wrapper (VFunc 1) [VInt 10]
               [("y", VInt 1)])
            [VInt 20] [("a", VInt 0); ("y", VInt 2)]
          = Err (TypeError (multiple_values_for_keyword k')).
Proof.
  split.
  - apply (@wrapper_forwards_merged sample_program (VFunc 1) [VInt 10]
             [("y", VInt 1)] [VInt 20] [("x", VInt 2)]); compute_done.
  - apply (proj2 (@wrapper_forwards_merged sample_program (VFunc 1) [VInt 10]
             [("y", VInt 1)] [VInt 20] [("a", VInt 0); ("y", VInt 2)]
             ltac:(compute_done)) "y"); compute_done.
Defined.

(** C8 as stated fails: the wrapper has nothing bound, but the Action called
    with a keyword named [self] raises [TypeError] at the binding of
    [__call__] and function 1 is not called, with those arguments or any. *)
Lemma setter_keyword_self_not_forwarded :
  exists a' : instance,
    property_set AbstractAction.__behavior___setter some_action (VFunc 1) = Ok a'
    /\ a' !! "_behavior_store" = Some (AbstractAction._gen_wrapper (VFunc 1) [] [])
    /\ @AbstractAction.__call__ sample_program a' [VInt 2] [("self", VNone)]
       = Err (TypeError (multiple_values_for_keyword "self"))
    /\ @AbstractAction.__call__ sample_program a' [VInt 2] [("self", VNone)]
       <> @call sample_program (VFunc 1) [VInt 2] [("self", VNone)].
Proof.
  eexists. split; [reflexivity|]. split; [reflexivity|].
  split; [reflexivity|]. vm_compute. discriminate.
Qed.

(** C8 (as amended): assigning [f] to the [__behavior__] property of a sync
    Action stores the wrapper of [f] with no bound positional and no bound
    named values, so that the Action called with any positional arguments
    and any keyword arguments none of which is named [self] calls [f] with
    exactly those arguments. *)
Theorem setter_binds_nothing `{Program} :
  forall (a : instance) (f : value) (args : list value) (kw : kwargs),
    is_None f = false ->
    iscoroutinefunction f = false ->
    "self" ∉ kw.*1 ->
    exists a' : instance,
      property_set AbstractAction.__behavior___setter a f = Ok a'
      /\ a' !! "_behavior_store" = Some (AbstractAction._gen_wrapper f [] [])
      /\ AbstractAction.__call__ a' args kw = call f args kw.
Proof.
  intros a f args kw Hn Hsync Hself. unfold property_set.
  rewrite sync_setter_accepts by assumption.
  eexists. split; [reflexivity|]. split.
  - apply lookup_insert_eq.
  - rewrite call_after_store by exact Hself. apply call_wrapper_unbound.
Qed.

Lemma setter_binds_nothing_witness :
  exists a' : instance,
    property_set AbstractAction.__behavior___setter some_action (VFunc 0) = Ok a'
    /\ a' !! "_behavior_store" = Some (VGeneric (VFunc 0) [] [])
    /\ @AbstractAction.__call__ sample_program a' [VInt 3] []
       = @call sample_program (VFunc 0) [VInt 3] [].
Proof.
  apply (@setter_binds_nothing sample_program some_action (VFunc 0)
           [VInt 3] []); compute_done.
Defined.

(** * Further properties of the capability checks *)

Lemma context_manager_exposes sub :
  context_manager sub = true <->
  exposes_callable sub "__aenter__" /\ exposes_callable sub "__aexit__"
  \/ exposes_callable sub "__enter__" /\ exposes_callable sub "__exit__".
Proof.
  unfold context_manager.
  rewrite orb_true_iff, !andb_true_iff, !has_callable_exposes. reflexivity.
Qed.

Lemma hooks_answer_true_iff sub before after :
  Ok (hooks_answer sub before after) = Ok True_ <->
  context_manager sub = true /\ has_callable sub after = true.
Proof.
  unfold hooks_answer. rewrite <- andb_true_iff.
  destruct (context_manager sub && has_callable sub after).
  - split; reflexivity.
  - split; discriminate.
Qed.

(** X1: a candidate passes the link-parser check exactly when it has a
    callable [__enter__] and [__exit__], or a callable [__aenter__] and
    [__aexit__], and besides a callable [generate_uri] and a callable
    [decode_uri]; any other candidate is answered [False]. *)
Theorem link_check_iff_members : forall sub : candidate,
  (satisfies sub link_parser = Ok True_ <->
     (exposes_callable sub "__enter__" /\ exposes_callable sub "__exit__"
      \/ exposes_callable sub "__aenter__" /\ exposes_callable sub "__aexit__")
     /\ exposes_callable sub "generate_uri"
     /\ exposes_callable sub "decode_uri")
  /\ (satisfies sub link_parser = Ok True_
      \/ satisfies sub link_parser = Ok False_).
Proof.
  intros sub. simpl. rewrite link_hook_bool. split.
  - rewrite answer_true_iff. unfold link_required.
    rewrite !andb_true_iff, orb_true_iff, !andb_true_iff,
      !has_callable_exposes. tauto.
  - destruct (link_required sub); [left | right]; reflexivity.
Qed.

(** X2: the download check answers [True] exactly when the candidate has a
    callable [__aenter__] and [__aexit__], or a callable [__enter__] and
    [__exit__], and a callable [after_download]; every other candidate is
    answered [NotImplemented]. *)
Theorem download_check_accepts_iff : forall sub : candidate,
  (satisfies sub download = Ok True_ <->
     (exposes_callable sub "__aenter__" /\ exposes_callable sub "__aexit__"
      \/ exposes_callable sub "__enter__" /\ exposes_callable sub "__exit__")
     /\ exposes_callable sub "after_download")
  /\ (satisfies sub download = Ok True_
      \/ satisfies sub download = Ok VNotImplemented).
Proof.
  intros sub. simpl. rewrite download_hook_answer. split.
  - rewrite hooks_answer_true_iff, context_manager_exposes,
      has_callable_exposes. reflexivity.
  - destruct (hooks_answer_cases sub "before_download" "after_download")
      as [-> | ->]; auto.
Qed.

(** X3: the upload check answers [True] exactly when the candidate has a
    callable context-manager pair and a callable [after_upload], and
    [NotImplemented] otherwise, never [False]; whether [before_upload] is
    there, and what it is, does not change the answer. *)
Theorem upload_check_accepts_iff : forall (sub : candidate) (v : value),
  (satisfies sub upload = Ok True_ <->
     (exposes_callable sub "__aenter__" /\ exposes_callable sub "__aexit__"
      \/ exposes_callable sub "__enter__" /\ exposes_callable sub "__exit__")
     /\ exposes_callable sub "after_upload")
  /\ (satisfies sub upload = Ok True_
      \/ satisfies sub upload = Ok VNotImplemented)
  /\ satisfies (<["before_upload" := v]> sub) upload
     = satisfies (delete "before_upload" sub) upload.
Proof.
  intros sub v. simpl. rewrite !upload_hook_answer. split; [ | split ].
  - rewrite hooks_answer_true_iff, context_manager_exposes,
      has_callable_exposes. reflexivity.
  - destruct (hooks_answer_cases sub "before_upload" "after_upload")
      as [-> | ->]; auto.
  - unfold hooks_answer, context_manager, has_callable.
    rewrite !lookup_insert_ne, !lookup_delete_ne by discriminate.
    reflexivity.
Qed.

Lemma has_fresh sub name v n :
  sub !! name = None -> has sub n = true -> has (<[name := v]> sub) n = true.
Proof.
  intros Hfresh. unfold has. rewrite !bool_decide_eq_true.
  intros [w Hw]. exists w. rewrite lookup_insert_ne; [exact Hw|].
  intros ->. congruence.
Qed.

Lemma has_callable_fresh sub name v n :
  sub !! name = None ->
  has_callable sub n = true -> has_callable (<[name := v]> sub) n = true.
Proof.
  intros Hfresh. unfold has_callable.
  destruct (decide (name = n)) as [-> | Hne].
  - rewrite Hfresh. discriminate.
  - rewrite lookup_insert_ne by exact Hne. auto.
Qed.

(** X4: a candidate that passes the check of a role still passes it after a
    new attribute is added to it: no check asks for the absence of a
    member. *)
Theorem check_kept_by_new_attribute :
  forall (sub : candidate) (r : role) (name : string) (v : value),
    sub !! name = None ->
    satisfies sub r = Ok True_ ->
    satisfies (<[name := v]> sub) r = Ok True_.
Proof.
  intros sub r name v Hfresh.
  pose proof (has_fresh sub name v) as Hh.
  pose proof (has_callable_fresh sub name v) as Hc.
  specialize (fun n => Hh n Hfresh). specialize (fun n => Hc n Hfresh).
  destruct r; simpl.
  - rewrite !link_hook_bool, !answer_true_iff. unfold link_required.
    rewrite !andb_true_iff, !orb_true_iff, !andb_true_iff.
    intuition auto.
  - rewrite !registry_hook_bool, !answer_true_iff. unfold registry_required.
    rewrite !andb_true_iff, !orb_true_iff.
    intuition auto.
  - rewrite !action_hook_bool, !answer_true_iff. unfold action_required.
    rewrite !orb_true_iff, !andb_true_iff.
    intuition auto.
  - rewrite !download_hook_answer, !hooks_answer_true_iff.
    unfold context_manager. rewrite !orb_true_iff, !andb_true_iff.
    intuition auto.
  - rewrite !upload_hook_answer, !hooks_answer_true_iff.
    unfold context_manager. rewrite !orb_true_iff, !andb_true_iff.
    intuition auto.
Qed.

Lemma check_kept_by_new_attribute_witness :
  satisfies (<["before_download" := VInt 0]> without_before_download) download
  = Ok True_.
Proof.
  apply (check_kept_by_new_attribute without_before_download download
           "before_download" (VInt 0)); reflexivity.
Defined.

(** * Further properties of the Action classes *)

Lemma dict_update_notin (kw : kwargs) (self : instance) (k : string) :
  k ∉ kw.*1 -> dict_update self kw !! k = self !! k.
Proof.
  revert self. induction kw as [| [k0 v0] rest IH]; intros self Hk.
  - reflexivity.
  - simpl in Hk. apply not_elem_of_cons in Hk as [Hne Hk].
    unfold dict_update in *. simpl. rewrite IH by exact Hk.
    apply lookup_insert_ne. congruence.
Qed.

Lemma dict_update_in (kw : kwargs) (self : instance) (k : string) (v : value) :
  NoDup kw.*1 -> (k, v) ∈ kw -> dict_update self kw !! k = Some v.
Proof.
  revert self. induction kw as [| [k0 v0] rest IH]; intros self Hnd Hin.
  - apply elem_of_nil in Hin. contradiction.
  - simpl in Hnd. apply NoDup_cons in Hnd as [Hk0 Hnd].
    apply elem_of_cons in Hin as [Heq | Hin].
    + injection Heq as -> ->.
      change (dict_update (<[k0 := v0]> self) rest !! k0 = Some v0).
      rewrite dict_update_notin by exact Hk0. apply lookup_insert_eq.
    + change (dict_update (<[k0 := v0]> self) rest !! k = Some v).
      apply IH; assumption.
Qed.

Lemma call_not_callable `{Program} (v : value) args kw :
  is_callable v = false -> call v args kw = Err (TypeError not_callable).
Proof. destruct v; (discriminate || reflexivity). Qed.

Lemma sync_init_accepts (f : value) (kw : kwargs) :
  is_None f = false -> iscoroutinefunction f = false ->
  "self" ∉ kw.*1 -> "func" ∉ kw.*1 ->
  AbstractAction.__init__ [f] kw
  = Ok (dict_update
          (<["_behavior_store" := VGeneric f [] []]>
             {[ "_behavior_store" := VLambdaNotImplemented ]}) kw).
Proof.
  intros Hn Hc Hself Hfunc. unfold AbstractAction.__init__.
  rewrite bind_self_optional_positional by assumption.
  unfold property_set, AbstractAction.__behavior___setter. simpl.
  rewrite Hn, Hc. reflexivity.
Qed.

Lemma call_of_store `{Program} (a : instance) (w : value) args kw :
  "self" ∉ kw.*1 ->
  a !! "_behavior_store" = Some w ->
  AbstractAction.__call__ a args kw = call w args kw.
Proof.
  intros Hself Hw. unfold AbstractAction.__call__, AbstractAction.__behavior__.
  unfold getattr. rewrite (bind_self_ok kw Hself), Hw. reflexivity.
Qed.

(** X5: a call of [AbstractAction] with a sync [f] as its one positional
    argument and extra keywords, none of them named [self], [func] or
    [_behavior_store], builds an Action whose call, with keywords not named
    [self], is the call of [f], and every extra keyword is an entry of its
    [__dict__]. *)
Theorem construct_then_call `{Program} :
  forall (f : value) (extra : kwargs) (args : list value) (kw : kwargs),
    is_None f = false ->
    iscoroutinefunction f = false ->
    NoDup extra.*1 ->
    "self" ∉ extra.*1 ->
    "func" ∉ extra.*1 ->
    "_behavior_store" ∉ extra.*1 ->
    "self" ∉ kw.*1 ->
    exists a : instance,
      AbstractAction.__init__ [f] extra = Ok a
      /\ AbstractAction.__call__ a args kw = call f args kw
      /\ Forall (fun kv => a !! kv.1 = Some kv.2) extra.
Proof.
  intros f extra args kw Hn Hc Hnd Hself Hfunc Hstore Hkw.
  rewrite sync_init_accepts by assumption.
  eexists. split; [reflexivity|]. split.
  - rewrite (call_of_store _ (VGeneric f [] [])).
    + apply call_wrapper_unbound.
    + exact Hkw.
    + rewrite dict_update_notin by exact Hstore. apply lookup_insert_eq.
  - apply Forall_forall. intros [k v] Hin. simpl.
    apply dict_update_in; assumption.
Qed.

Lemma construct_then_call_witness :
  exists a : instance,
    AbstractAction.__init__ [VFunc 0] [("name", VStr "echo")] = Ok a
    /\ @AbstractAction.__call__ sample_program a [] [("x", VInt 5)]
       = @call sample_program (VFunc 0) [] [("x", VInt 5)]
    /\ Forall (fun kv => a !! kv.1 = Some kv.2) [("name", VStr "echo")].
Proof.
  apply (@construct_then_call sample_program (VFunc 0)
           [("name", VStr "echo")] [] [("x", VInt 5)]); compute_done.
Defined.

(** X6: an extra keyword named [_behavior_store] replaces the wrapper the
    constructor has just stored: the Action then calls that value as it is,
    unwrapped and unchecked, whatever [f] was. *)
Theorem construct_keyword_overrides_behavior `{Program} :
  forall (f g : value) (extra : kwargs) (args : list value) (kw : kwargs),
    is_None f = false ->
    iscoroutinefunction f = false ->
    NoDup extra.*1 ->
    "self" ∉ extra.*1 ->
    "func" ∉ extra.*1 ->
    ("_behavior_store", g) ∈ extra ->
    "self" ∉ kw.*1 ->
    exists a : instance,
      AbstractAction.__init__ [f] extra = Ok a
      /\ AbstractAction.__behavior__ a = Ok g
      /\ AbstractAction.__call__ a args kw = call g args kw.
Proof.
  intros f g extra args kw Hn Hc Hnd Hself Hfunc Hin Hkw.
  rewrite sync_init_accepts by assumption.
  eexists. split; [reflexivity|].
  pose proof (dict_update_in extra
    (<["_behavior_store" := VGeneric f [] []]>
       {[ "_behavior_store" := VLambdaNotImplemented ]})
    "_behavior_store" g Hnd Hin) as Hg.
  split.
  - unfold AbstractAction.__behavior__, getattr. rewrite Hg. reflexivity.
  - apply call_of_store; assumption.
Qed.

Lemma construct_keyword_overrides_behavior_witness :
  exists a : instance,
    AbstractAction.__init__ [VFunc 0] [("_behavior_store", VCoroFunc 5)] = Ok a
    /\ AbstractAction.__behavior__ a = Ok (VCoroFunc 5)
    /\ @AbstractAction.__call__ sample_program a [VInt 1] []
       = @call sample_program (VCoroFunc 5) [VInt 1] [].
Proof.
  apply (@construct_keyword_overrides_behavior sample_program (VFunc 0)
           (VCoroFunc 5) [("_behavior_store", VCoroFunc 5)] [VInt 1] []);
    [ reflexivity | reflexivity | compute_done | compute_done | compute_done
    | left | compute_done ].
Defined.

(** X7: a behavior assigned after another one replaces it: the Action,
    called with keywords not named [self], then calls the second callable,
    and the assignments leave every other entry of the instance as it was. *)
Theorem replaced_behavior_is_called `{Program} :
  forall (a : instance) (f g : value) (args : list value) (kw : kwargs),
    is_None f = false -> iscoroutinefunction f = false ->
    is_None g = false -> iscoroutinefunction g = false ->
    "self" ∉ kw.*1 ->
    exists a1 a2 : instance,
      property_set AbstractAction.__behavior___setter a f = Ok a1
      /\ property_set AbstractAction.__behavior___setter a1 g = Ok a2
      /\ AbstractAction.__call__ a2 args kw = call g args kw
      /\ delete "_behavior_store" a2 = delete "_behavior_store" a.
Proof.
  intros a f g args kw Hf Hfc Hg Hgc Hself. unfold property_set.
  rewrite (sync_setter_accepts a f) by assumption.
  eexists. eexists. split; [reflexivity|].
  rewrite sync_setter_accepts by assumption. split; [reflexivity|]. split.
  - rewrite call_after_store by exact Hself. apply call_wrapper_unbound.
  - rewrite !delete_insert_eq. reflexivity.
Qed.

Lemma replaced_behavior_is_called_witness :
  exists a1 a2 : instance,
    property_set AbstractAction.__behavior___setter some_action (VFunc 1) = Ok a1
    /\ property_set AbstractAction.__behavior___setter a1 (VFunc 0) = Ok a2
    /\ @AbstractAction.__call__ sample_program a2 [VInt 4] []
       = @call sample_program (VFunc 0) [VInt 4] []
    /\ delete "_behavior_store" a2 = delete "_behavior_store" some_action.
Proof.
  apply (@replaced_behavior_is_called sample_program some_action
           (VFunc 1) (VFunc 0) [VInt 4] []); compute_done.
Defined.

(** X8: a wrapper of a wrapper forwards to the innermost callable: the
    call-site positionals come first, then the outer bound ones, then the
    inner bound ones, and likewise for the named arguments, when all the
    names are different. *)
Theorem nested_wrappers_compose `{Program} :
  forall (Func : value) (inner_args outer_args args : list value)
         (inner_kw outer_kw kw : kwargs),
    NoDup (kw.*1 ++ outer_kw.*1 ++ inner_kw.*1) ->
    call (AbstractAction._gen_wrapper
            (AbstractAction._gen_wrapper Func inner_args inner_kw)
            outer_args outer_kw) args kw
    = call Func (args ++ outer_args ++ inner_args)
        (kw ++ outer_kw ++ inner_kw).
Proof.
  intros Func ia oa args ik ok kw Hnd.
  apply NoDup_app in Hnd as (_ & Hkw & Hnd).
  apply NoDup_app in Hnd as (Hok & Hoi & Hik).
  unfold AbstractAction._gen_wrapper.
  rewrite call_wrapper. unfold _generic at 1.
  rewrite (dict_merge_disjoint ok kw Hok).
  - simpl. try rewrite call_wrapper. unfold _generic.
    rewrite (dict_merge_disjoint ik (kw ++ ok) Hik).
    + simpl. rewrite <- !app_assoc. reflexivity.
    + rewrite fmap_app, Forall_app. split; apply Forall_forall.
      * intros x Hx Hin. apply (Hkw x Hx). apply elem_of_app. right. exact Hin.
      * intros x Hx Hin. apply (Hoi x Hx Hin).
  - apply Forall_forall. intros x Hx Hin.
    apply (Hkw x Hx). apply elem_of_app. left. exact Hin.
Qed.

Lemma nested_wrappers_compose_witness :
  @call sample_program
    (AbstractAction._gen_wrapper
       (AbstractAction._gen_wrapper (VFunc 1) [VInt 1] [("z", VInt 2)])
       [VInt 3] [("y", VInt 4)]) [VInt 5] [("x", VInt 6)]
  = @call sample_program (VFunc 1) [VInt 5; VInt 3; VInt 1]
      [("x", VInt 6); ("y", VInt 4); ("z", VInt 2)].
Proof.
  apply (@nested_wrappers_compose sample_program (VFunc 1) [VInt 1] [VInt 3]
           [VInt 5] [("z", VInt 2)] [("y", VInt 4)] [("x", VInt 6)]).
  compute_done.
Defined.

(** X9: the setter of a sync Action checks only for [None] and coroutine
    functions: a value that cannot be called at all is accepted, and it is
    the later call of the Action that fails, with [TypeError] whatever the
    arguments are: for a value that is not callable when no keyword is named
    [self]. *)
Theorem not_callable_accepted_then_fails `{Program} :
  forall (a : instance) (v : value),
    is_None v = false ->
    is_callable v = false ->
    exists a' : instance,
      property_set AbstractAction.__behavior___setter a v = Ok a'
      /\ forall (args : list value) (kw : kwargs),
           exists why : type_error,
             AbstractAction.__call__ a' args kw = Err (TypeError why)
             /\ ("self" ∉ kw.*1 -> why = not_callable).
Proof.
  intros a v Hn Hc. unfold property_set.
  rewrite sync_setter_accepts;
    [ | exact Hn | destruct v; (discriminate || reflexivity) ].
  eexists. split; [reflexivity|]. intros args kw.
  destruct (decide ("self" ∈ kw.*1)) as [Hself | Hself].
  - exists (multiple_values_for_keyword "self").
    split; [ apply call_keyword_self; exact Hself | contradiction ].
  - exists not_callable. split; [ | reflexivity ].
    rewrite call_after_store, call_wrapper_unbound by exact Hself.
    apply call_not_callable. exact Hc.
Qed.

Lemma not_callable_accepted_then_fails_witness :
  exists a' : instance,
    property_set AbstractAction.__behavior___setter some_action (VInt 3) = Ok a'
    /\ forall (args : list value) (kw : kwargs),
         exists why : type_error,
           @AbstractAction.__call__ sample_program a' args kw
           = Err (TypeError why)
           /\ ("self" ∉ kw.*1 -> why = not_callable).
Proof.
  apply (@not_callable_accepted_then_fails sample_program some_action (VInt 3));
    reflexivity.
Defined.

(** X10: when a name is both bound in the wrapper and given at the call
    site, the call raises [TypeError] for a name that is in both, whatever
    the wrapped value and the positional arguments are; the wrapped callable
    is not reached. *)
Theorem wrapper_refuses_repeated_name `{Program} :
  forall (Func : value) (Partial_Args : list value) (Partial_Kwargs : kwargs)
         (args : list value) (kw : kwargs) (k : string),
    NoDup Partial_Kwargs.*1 ->
    k ∈ kw.*1 ->
    k ∈ Partial_Kwargs.*1 ->
    exists k' : string,
      k' ∈ kw.*1 /\ k' ∈ Partial_Kwargs.*1
      /\ call (AbstractAction._gen_wrapper Func Partial_Args Partial_Kwargs)
           args kw
         = Err (TypeError (multiple_values_for_keyword k')).
Proof.
  intros Func pa pk args kw k Hnd Hkw Hpk.
  destruct (dict_merge_overlap_name pk kw k Hnd Hkw Hpk)
    as (k' & Hk'kw & Hk'pk & Herr).
  exists k'. split; [exact Hk'kw|]. split; [exact Hk'pk|].
  unfold AbstractAction._gen_wrapper. rewrite call_wrapper.
  unfold _generic. rewrite Herr. reflexivity.
Qed.

Lemma wrapper_refuses_repeated_name_witness :
  exists k' : string,
    k' ∈ [("a", VInt 1); ("x", VInt 2)].*1
    /\ k' ∈ [("x", VInt 3); ("b", VInt 4)].*1
    /\ @call sample_program
         (AbstractAction._gen_wrapper (VFunc 1) [] [("x", VInt 3); ("b", VInt 4)])
         [] [("a", VInt 1); ("x", VInt 2)]
       = Err (TypeError (multiple_values_for_keyword k')).
Proof.
  apply (@wrapper_refuses_repeated_name sample_program (VFunc 1) []
           [("x", VInt 3); ("b", VInt 4)] [] [("a", VInt 1); ("x", VInt 2)]
           "x"); compute_done.
Defined.

(** X11: a coroutine function assigned as the behavior of an async Action
    is stored wrapped with nothing bound, and [__await__] with arguments the
    coroutine function accepts, no keyword being named [self], hands back the
    coroutine of that function on exactly those arguments. *)
Theorem async_behavior_awaited `{Program} :
  forall (a : instance) (c : nat) (args : list value) (kw : kwargs),
    async_def_binds c args kw = true ->
    "self" ∉ kw.*1 ->
    exists a' : instance,
      property_set AbstractAsyncAction.__async_behavior___setter a (VCoroFunc c)
      = Ok a'
      /\ AbstractAsyncAction.__async_behavior__ a'
         = Ok (AbstractAsyncAction._gen_wrapper (VCoroFunc c) [] [])
      /\ AbstractAsyncAction.__await__ a' args kw
         = Ok (VCoroutine (VCoroFunc c) args kw).
Proof.
  intros a c args kw Hb Hself. eexists. split; [reflexivity|].
  unfold AbstractAsyncAction.__await__. rewrite (bind_self_ok kw Hself).
  unfold AbstractAsyncAction.__async_behavior__, getattr.
  rewrite lookup_insert_eq. split; [reflexivity|].
  unfold AbstractAsyncAction._gen_wrapper, mbind, result_bind.
  rewrite call_wrapper_unbound. simpl. rewrite Hb. reflexivity.
Qed.

Lemma async_behavior_awaited_witness :
  exists a' : instance,
    property_set AbstractAsyncAction.__async_behavior___setter some_action
      (VCoroFunc 2) = Ok a'
    /\ AbstractAsyncAction.__async_behavior__ a'
       = Ok (VGeneric (VCoroFunc 2) [] [])
    /\ @AbstractAsyncAction.__await__ sample_program a' [VInt 1] []
       = Ok (VCoroutine (VCoroFunc 2) [VInt 1] []).
Proof.
  apply (@async_behavior_awaited sample_program some_action 2 [VInt 1] []);
    compute_done.
Defined.

(** X12: what the [__async_behavior__] property of an async Action returns
    cannot be assigned to an async Action again, because the wrapper is no
    coroutine function; a sync Action accepts it, and its call, with keywords
    not named [self], then returns what the call of the coroutine function
    returns. *)
Theorem async_wrapper_passes_sync_check `{Program} :
  forall (a b : instance) (c : nat) (args : list value) (kw : kwargs),
    "self" ∉ kw.*1 ->
    exists (a' : instance) (w : value),
      property_set AbstractAsyncAction.__async_behavior___setter a (VCoroFunc c)
      = Ok a'
      /\ AbstractAsyncAction.__async_behavior__ a' = Ok w
      /\ property_set AbstractAsyncAction.__async_behavior___setter b w
         = Err (ValueError AbstractAsyncAction.illegal_non_coroutine)
      /\ exists b' : instance,
           property_set AbstractAction.__behavior___setter b w = Ok b'
           /\ AbstractAction.__call__ b' args kw = call (VCoroFunc c) args kw.
Proof.
  intros a b c args kw Hself. eexists. eexists. split; [reflexivity|]. split.
  - unfold AbstractAsyncAction.__async_behavior__, getattr.
    rewrite lookup_insert_eq. reflexivity.
  - split; [reflexivity|]. eexists. split; [reflexivity|].
    rewrite call_after_store by exact Hself.
    unfold AbstractAction._gen_wrapper, AbstractAsyncAction._gen_wrapper.
    rewrite !call_wrapper_unbound. reflexivity.
Qed.

Lemma async_wrapper_passes_sync_check_witness :
  exists (a' : instance) (w : value),
    property_set AbstractAsyncAction.__async_behavior___setter some_action
      (VCoroFunc 2) = Ok a'
    /\ AbstractAsyncAction.__async_behavior__ a' = Ok w
    /\ property_set AbstractAsyncAction.__async_behavior___setter some_action w
       = Err (ValueError AbstractAsyncAction.illegal_non_coroutine)
    /\ exists b' : instance,
         property_set AbstractAction.__behavior___setter some_action w = Ok b'
         /\ @AbstractAction.__call__ sample_program b' [VInt 1] []
            = @call sample_program (VCoroFunc 2) [VInt 1] [].
Proof.
  apply (@async_wrapper_passes_sync_check sample_program some_action
           some_action 2 [VInt 1] []); compute_done.
Defined.

(** * Properties of [memoize] *)

Section memoize_properties.
Context {World R : Type}.
Variable function : World -> list value -> kwargs -> result R.

Abbreviation cache_of := (list (list value * kwargs * R)).

Lemma cache_get_set_eq (cache : cache_of) call (res : R) :
  memoize.cache_get (memoize.cache_set cache call res) call = Some res.
Proof.
  induction cache as [| [k r] rest IH]; simpl.
  - rewrite decide_True by reflexivity. reflexivity.
  - destruct (decide (k = call)) as [Heq | Hne]; simpl.
    + rewrite decide_True by exact Heq. reflexivity.
    + rewrite decide_False by exact Hne. exact IH.
Qed.

Lemma cache_get_set_ne (cache : cache_of) call other (res : R) :
  other <> call ->
  memoize.cache_get (memoize.cache_set cache call res) other
  = memoize.cache_get cache other.
Proof.
  intros Hne. induction cache as [| [k r] rest IH]; simpl.
  - rewrite decide_False by congruence. reflexivity.
  - destruct (decide (k = call)) as [Heq | Hk]; simpl.
    + subst k. rewrite !decide_False by congruence. reflexivity.
    + destruct (decide (k = other)); [reflexivity | exact IH].
Qed.

(** A call that finds its key returns the stored result and changes
    nothing. *)
Lemma result_hit (cache : cache_of) world args kw (cached : R) skip :
  memoize.cache_get cache (memoize.call_of args kw) = Some cached ->
  memoize.result function cache world args false false skip kw
  = (Ok cached, cache).
Proof. intros Hget. unfold memoize.result. rewrite Hget. reflexivity. Qed.

(** X13: once a call without flags has returned a value, every later call
    without flags whose arguments are equal to its own returns the same
    value and leaves the cache as it is, whatever has become of the world:
    the function is not evaluated again. *)
Theorem memoize_returns_first_result :
  forall (cache cache' : cache_of) (world world' : World)
         (args args' : list value) (kw kw' : kwargs) (v : R),
    memoize.result function cache world args false false false kw
    = (Ok v, cache') ->
    memoize.call_of args' kw' = memoize.call_of args kw ->
    memoize.result function cache' world' args' false false false kw'
    = (Ok v, cache').
Proof.
  intros cache cache' world world' args args' kw kw' v Hfirst Hkey.
  apply result_hit. rewrite Hkey.
  unfold memoize.result in Hfirst.
  destruct (memoize.cache_get cache (memoize.call_of args kw)) as [r|] eqn:Hget.
  - injection Hfirst as -> ->. exact Hget.
  - destruct (function world args kw) as [res | e]; [ | discriminate ].
    injection Hfirst as -> <-. apply cache_get_set_eq.
Qed.

(** X14: a call with [clear_cache] evaluates the function whatever was
    cached, and forgets every other entry: a later call without flags for
    any other key evaluates the function again. *)
Theorem memoize_clear_cache_forgets_all :
  forall (cache : cache_of) (world world' : World)
         (args args' : list value) (kw kw' : kwargs) (ignore skip : bool),
    memoize.call_of args' kw' <> memoize.call_of args kw ->
    (memoize.result function cache world args true ignore skip kw).1
    = function world args kw
    /\ (memoize.result function
          (memoize.result function cache world args true ignore skip kw).2
          world' args' false false false kw').1
       = function world' args' kw'.
Proof.
  intros cache world world' args args' kw kw' ignore skip Hne.
  unfold memoize.result at 1 3. simpl.
  destruct (function world args kw) as [res | e]; simpl.
  - split; [reflexivity|]. unfold memoize.result.
    destruct skip; simpl.
    + destruct (function world' args' kw'); reflexivity.
    + rewrite decide_False by congruence.
      destruct (function world' args' kw'); reflexivity.
  - split; [reflexivity|]. unfold memoize.result. simpl.
    destruct (function world' args' kw'); reflexivity.
Qed.

(** X15: a call with [ignore_cache] evaluates the function even when its
    key is cached, and a value it returns replaces the cached one: later
    calls without flags return the new value. *)
Theorem memoize_ignore_cache_refreshes :
  forall (cache : cache_of) (world world' : World) (args : list value)
         (kw : kwargs) (clear : bool) (v : R),
    function world args kw = Ok v ->
    exists cache' : cache_of,
      memoize.result function cache world args clear true false kw
      = (Ok v, cache')
      /\ memoize.result function cache' world' args false false false kw
         = (Ok v, cache').
Proof.
  intros cache world world' args kw clear v Hv.
  unfold memoize.result at 1. rewrite Hv.
  destruct (memoize.cache_get _ _); eexists;
    (split; [reflexivity | apply result_hit, cache_get_set_eq]).
Qed.

(** X16: a call with [skip_cache] and without [clear_cache] leaves the
    cache as it was, whether it finds its key or not and whether the
    function returns or raises: a value it computes is not stored, and a
    value stored before is not replaced. *)
Theorem memoize_skip_cache_stores_nothing :
  forall (cache : cache_of) (world : World) (args : list value) (kw : kwargs)
         (ignore : bool),
    (memoize.result function cache world args false ignore true kw).2 = cache.
Proof.
  intros cache world args kw ignore. unfold memoize.result. simpl.
  destruct (memoize.cache_get _ _), ignore;
    try reflexivity; destruct (function world args kw); reflexivity.
Qed.

(** X17: when the function raises on a key that is not cached, the
    exception reaches the caller and nothing is stored for the key: the next
    call evaluates the function again. *)
Theorem memoize_exception_not_cached :
  forall (cache : cache_of) (world world' : World) (args : list value)
         (kw : kwargs) (ignore skip : bool) (e : exn),
    memoize.cache_get cache (memoize.call_of args kw) = None ->
    function world args kw = Err e ->
    memoize.result function cache world args false ignore skip kw
    = (Err e, cache)
    /\ (memoize.result function cache world' args false false false kw).1
       = function world' args kw.
Proof.
  intros cache world world' args kw ignore skip e Hmiss Herr.
  unfold memoize.result. simpl. rewrite Hmiss, Herr. split; [reflexivity|].
  destruct (function world' args kw); reflexivity.
Qed.

Lemma result_frame (cache : cache_of) world args kw ignore skip other :
  other <> memoize.call_of args kw ->
  memoize.cache_get
    (memoize.result function cache world args false ignore skip kw).2 other
  = memoize.cache_get cache other.
Proof.
  intros Hne. unfold memoize.result. simpl.
  destruct (memoize.cache_get cache (memoize.call_of args kw)), ignore;
    try reflexivity;
    destruct (function world args kw), skip; simpl;
    try reflexivity; apply cache_get_set_ne; exact Hne.
Qed.

(** X18: without [clear_cache] a call touches no entry but its own: what
    is cached under any other key is the same before and after. *)
Theorem memoize_other_entries_kept :
  forall (cache : cache_of) (world : World) (args : list value) (kw : kwargs)
         (ignore skip : bool) (other : list value * kwargs),
    other <> memoize.call_of args kw ->
    memoize.cache_get
      (memoize.result function cache world args false ignore skip kw).2 other
    = memoize.cache_get cache other.
Proof.
  intros cache world args kw ignore skip other Hne.
  unfold memoize.result. simpl.
  destruct (memoize.cache_get cache (memoize.call_of args kw)) as [r|];
    destruct ignore; simpl; try reflexivity;
    destruct (function world args kw) as [res | e]; simpl;
    try reflexivity;
    destruct skip; try reflexivity;
    apply cache_get_set_ne; exact Hne.
Qed.

(** X19: without [clear_cache] no call removes an entry: a key that is
    cached before a call, its own or another, is cached after it. *)
Theorem memoize_entries_never_dropped :
  forall (cache : cache_of) (world : World) (args : list value) (kw : kwargs)
         (ignore skip : bool) (key : list value * kwargs),
    is_Some (memoize.cache_get cache key) ->
    is_Some (memoize.cache_get
      (memoize.result function cache world args false ignore skip kw).2 key).
Proof.
  intros cache world args kw ignore skip key.
  destruct (decide (key = memoize.call_of args kw)) as [-> | Hne].
  - intros Hsome. unfold memoize.result. simpl.
    destruct (memoize.cache_get cache (memoize.call_of args kw)) eqn:Hget;
      [ | destruct Hsome; discriminate ].
    destruct ignore; simpl; [ | rewrite Hget; eauto ].
    destruct (function world args kw), skip; simpl;
      rewrite ?Hget, ?cache_get_set_eq; eauto.
  - rewrite result_frame by exact Hne. auto.
Qed.

End memoize_properties.

Lemma memoize_returns_first_result_witness :
  memoize.result read_number [(([VInt 1], []), VInt 7)] (-1)%Z
    [VInt 1] false false false []
  = (Ok (VInt 7), [(([VInt 1], []), VInt 7)]).
Proof.
  apply (memoize_returns_first_result read_number []
           [(([VInt 1], []), VInt 7)] 7%Z (-1)%Z [VBool true] [VInt 1] [] []
           (VInt 7)); reflexivity.
Defined.

Lemma memoize_clear_cache_forgets_all_witness :
  (memoize.result read_number [(([VInt 1], []), VInt 7)] 8%Z
     [VInt 2] true false false []).1 = Ok (VInt 8)
  /\ (memoize.result read_number
        (memoize.result read_number [(([VInt 1], []), VInt 7)] 8%Z
           [VInt 2] true false false []).2
        9%Z [VInt 1] false false false []).1 = Ok (VInt 9).
Proof.
  apply (memoize_clear_cache_forgets_all read_number
           [(([VInt 1], []), VInt 7)] 8%Z 9%Z [VInt 2] [VInt 1] [] []
           false false).
  vm_compute. discriminate.
Defined.

Lemma memoize_ignore_cache_refreshes_witness :
  exists cache' : list (list value * kwargs * value),
    memoize.result read_number [(([VInt 1], []), VInt 7)] 8%Z
      [VInt 1] false true false [] = (Ok (VInt 8), cache')
    /\ memoize.result read_number cache' (-1)%Z [VInt 1] false false false []
       = (Ok (VInt 8), cache').
Proof.
  apply (memoize_ignore_cache_refreshes read_number
           [(([VInt 1], []), VInt 7)] 8%Z (-1)%Z [VInt 1] [] false (VInt 8)).
  reflexivity.
Defined.

Lemma memoize_exception_not_cached_witness :
  memoize.result read_number [(([VInt 1], []), VInt 7)] (-1)%Z
    [VInt 2] false false false []
  = (Err (Raised "OSError"), [(([VInt 1], []), VInt 7)])
  /\ (memoize.result read_number [(([VInt 1], []), VInt 7)] 5%Z
        [VInt 2] false false false []).1 = Ok (VInt 5).
Proof.
  apply (memoize_exception_not_cached read_number
           [(([VInt 1], []), VInt 7)] (-1)%Z 5%Z [VInt 2] [] false false
           (Raised "OSError")); reflexivity.
Defined.

Lemma memoize_other_entries_kept_witness :
  memoize.cache_get
    (memoize.result read_number [(([VInt 1], []), VInt 7)] 8%Z
       [VInt 2] false false false []).2 ([VInt 1], [])
  = Some (VInt 7).
Proof.
  apply (memoize_other_entries_kept read_number
           [(([VInt 1], []), VInt 7)] 8%Z [VInt 2] [] false false
           ([VInt 1], [])).
  vm_compute. discriminate.
Defined.

Lemma memoize_entries_never_dropped_witness :
  is_Some (memoize.cache_get
    (memoize.result read_number [(([VInt 1], []), VInt 7)] 8%Z
       [VInt 1] false true false []).2 ([VInt 1], [])).
Proof.
  apply (memoize_entries_never_dropped read_number
           [(([VInt 1], []), VInt 7)] 8%Z [VInt 1] [] true false
           ([VInt 1], [])).
  vm_compute. eauto.
Defined.

(** * Properties of [AbstractLinkParser.decode_uri] *)


(** X21: for a [str] token on which the serializer built from the key
    alone, without [expires_in], raises an exception of the [BadData] family,
    [decode_uri] returns the dictionary with the one entry [error]: the link
    has expired for [SignatureExpired], the link is invalid for the others. *)
Theorem decode_uri_reports_bad_data `{Itsdangerous} :
  forall (s : string) (key : value) (name : string),
    loads {| secret_key := key; expires_in := None |} s = Err (Raised name) ->
    is_BadData name = true ->
    AbstractLinkParser.decode_uri (uri_str s) key
    = Ok (inr {[ "error" := VStr (if String.eqb name "SignatureExpired"
                                  then "Link has expired."
                                  else "Link is invalid.") ]}).
Proof.
  intros s key name Hloads Hbad.
  unfold AbstractLinkParser.decode_uri, AbstractLinkParser.decode_uri_try.
  simpl. change (AbstractLinkParser.serializer key (-1))
    with {| secret_key := key; expires_in := None |}.
  rewrite Hloads, Hbad.
  destruct (String.eqb name "SignatureExpired"); reflexivity.
Qed.

Lemma decode_uri_reports_bad_data_witness :
  @AbstractLinkParser.decode_uri sample_library (uri_str "forged") (VStr "k")
  = Ok (inr {[ "error" := VStr "Link is invalid." ]}).
Proof.
  apply (@decode_uri_reports_bad_data sample_library "forged" (VStr "k")
           "BadSignature"); reflexivity.
Defined.

(** X22: a [bytes] token is decoded as UTF-8 and then handled as the [str]
    it decodes to: both give the same result. *)
Theorem decode_uri_bytes_as_str `{Itsdangerous} :
  forall (b : list Byte.byte) (s : string) (key : value),
    decode_utf8 b = Some s ->
    AbstractLinkParser.decode_uri (uri_bytes b) key
    = AbstractLinkParser.decode_uri (uri_str s) key.
Proof.
  intros b s key Hb.
  unfold AbstractLinkParser.decode_uri, AbstractLinkParser.decode_uri_try.
  unfold AbstractLinkParser.decode. rewrite Hb. reflexivity.
Qed.

Lemma decode_uri_bytes_as_str_witness :
  @AbstractLinkParser.decode_uri sample_library
    (uri_bytes [Byte.x6f; Byte.x6c; Byte.x64]) (VStr "k")
  = @AbstractLinkParser.decode_uri sample_library (uri_str "old") (VStr "k").
Proof.
  apply (@decode_uri_bytes_as_str sample_library
           [Byte.x6f; Byte.x6c; Byte.x64] "old" (VStr "k")).
  reflexivity.
Defined.
